(** * A shallow embedding of [mod.ts], the URL-pattern router for [Deno.serve]

    The source file holds two versions of the class [Router].  Both keep an
    ordered array [_routes] of pairs (compiled pattern, method mapping), fill
    it with [route], [get], [post], [put], [delete] and [patch], and answer a
    request with [handler], a sequential scan of the array.  They differ in
    one line: the first version answers a miss with [new Response(null,
    {status: 404})], the second with a field [_defaultResponse] that is
    built once by the constructor.

    JavaScript objects have an identity and the code runs in a world that it
    may change (allocation, the router's own fields, whatever a user handler
    touches), so the embedding passes the state explicitly and lets every
    operation end in a completion: a value or a thrown error. *)

From Stdlib Require Import String Ascii List ZArith NArith Bool Lia.
From stdpp Require Import base option list gmap strings.

Local Open Scope string_scope.
Local Open Scope list_scope.

(** ** Completions and errors *)

(** The errors that can leave [handler] or a registration call: the two
    kinds the runtime raises on the paths of this file, and whatever a user
    handler throws. *)
Inductive Error : Type :=
  | TypeError
  | URIError
  | UserError (payload : string).

Inductive Completion (A : Type) : Type :=
  | Normal (a : A)
  | Throw (e : Error).

Arguments Normal {A} a.
Arguments Throw {A} e.

(** ** Strings of the runtime: [decodeURIComponent]

    A JavaScript string is represented by the bytes of its UTF-8 encoding.
    [decodeURIComponent] replaces each escape [%XX] by the byte [XX]; the
    bytes of consecutive escapes have to form well-formed UTF-8, and every
    other character is kept.  A malformed escape raises [URIError]. *)

Definition hex_digit (c : ascii) : option N :=
  let n := N_of_ascii c in
  if ((48 <=? n) && (n <=? 57))%N then Some (n - 48)%N
  else if ((65 <=? n) && (n <=? 70))%N then Some (n - 55)%N
  else if ((97 <=? n) && (n <=? 102))%N then Some (n - 87)%N
  else None.

Definition in_range (b : N) (r : N * N) : bool :=
  ((fst r <=? b) && (b <=? snd r))%N.

(** The continuation bytes a leading byte asks for, as the ranges each of them
    has to lie in; [Some nil] for a one-byte character, [None] for a byte
    that cannot start a character. *)
Definition continuation_ranges (b : N) : option (list (N * N)) :=
  if (b <? 128)%N then Some []
  else if in_range b (194, 223)%N then Some [(128, 191)%N]
  else if (b =? 224)%N then Some [(160, 191)%N; (128, 191)%N]
  else if in_range b (225, 236)%N then Some [(128, 191)%N; (128, 191)%N]
  else if (b =? 237)%N then Some [(128, 159)%N; (128, 191)%N]
  else if in_range b (238, 239)%N then Some [(128, 191)%N; (128, 191)%N]
  else if (b =? 240)%N then Some [(144, 191)%N; (128, 191)%N; (128, 191)%N]
  else if in_range b (241, 243)%N
       then Some [(128, 191)%N; (128, 191)%N; (128, 191)%N]
  else if (b =? 244)%N then Some [(128, 143)%N; (128, 191)%N; (128, 191)%N]
  else None.

(** [Decode s pending] decodes [s] when the escapes read so far still owe the
    continuation bytes [pending]; [None] stands for the [URIError]. *)
Fixpoint Decode (s : string) (pending : list (N * N)) : option string :=
  match s with
  | EmptyString =>
      match pending with
      | [] => Some EmptyString
      | _ :: _ => None
      end
  | String c s1 =>
      if Ascii.eqb c "%"%char then
        match s1 with
        | String h (String l rest) =>
            match hex_digit h, hex_digit l with
            | Some a, Some b =>
                let B := (16 * a + b)%N in
                match pending with
                | [] =>
                    match continuation_ranges B with
                    | Some more =>
                        option_map (String (ascii_of_N B)) (Decode rest more)
                    | None => None
                    end
                | r :: more =>
                    if in_range B r
                    then option_map (String (ascii_of_N B)) (Decode rest more)
                    else None
                end
            | _, _ => None
            end
        | _ => None
        end
      else
        match pending with
        | [] => option_map (String c) (Decode s1 [])
        | _ :: _ => None
        end
  end.

Definition decodeURIComponent (s : string) : Completion string :=
  match Decode s [] with
  | Some d => Normal d
  | None => Throw URIError
  end.

(** ** Values of the runtime *)

(** A [Response] is an object: two responses built by two [new Response]
    are different objects even when status and body agree.  [resp_id] is
    the identity, handed out by the allocator of the world. *)
Record Response : Type := mkResponse {
  resp_id : nat;
  status : Z;
  body : option string
}.

(** A [Promise<Response>]: an object with the way it eventually settles. *)
Inductive Settlement : Type :=
  | Fulfilled (r : Response)
  | Rejected (e : Error)
  | Pending.

Record Promise : Type := mkPromise {
  promise_id : nat;
  settlement : Settlement
}.

Record Request : Type := mkRequest {
  method : string;
  url : string
}.

(** [Deno.ServeHandlerInfo], passed through to the handlers untouched. *)
Record ServeHandlerInfo : Type := mkInfo {
  remoteAddr : string
}.

(** [URLPatternResult["pathname"]["groups"]]: the named groups of a match in
    the order [for ... in] visits them, each a string or [undefined]. *)
Definition Groups : Type := list (string * option string).

(** The argument [{ request, info, query }] of a handler function. *)
Record HandlerData : Type := mkData {
  request : Request;
  info : ServeHandlerInfo;
  query : Groups
}.

(** What [handler] can evaluate to.  Its declared type is [Response |
    Promise<Response>]; the other values are the ones the members of
    [Object.prototype] produce (see [Object_prototype_call]). *)
Inductive Value : Type :=
  | VResponse (r : Response)
  | VPromise (p : Promise)
  | VUndefined
  | VString (s : string)
  | VData (d : HandlerData)
  | VObjectPrototype.

(** ** What the runtime provides

    [URLPattern] is the runtime's; the router uses its constructor (which
    throws a [TypeError] on a template it cannot compile: [None]), [test],
    and [exec(..).pathname.groups] ([None] when [exec] returns [null]).
    [AppState] is the state of the application the handlers live in. *)
Class Runtime : Type := {
  URLPattern : Type;
  newURLPattern : string -> option URLPattern;
  test : URLPattern -> string -> bool;
  exec : URLPattern -> string -> option Groups;
  AppState : Type
}.

Section Model.
Context {RT : Runtime}.

(** The world outside the router: the allocator and the application. *)
Record World : Type := mkWorld {
  next_id : nat;
  app_state : AppState
}.

(** Computations over a state [S] that end in a completion. *)
Definition Eff (S A : Type) : Type := S -> Completion A * S.

(** [new Response(body, { status })] *)
Definition new_Response (b : option string) (st : Z) : World -> Response * World :=
  fun w => (mkResponse (next_id w) st b, mkWorld (S (next_id w)) (app_state w)).

(** [ResponseLike]: a response, a promise of one, or a handler function. *)
Inductive ResponseLike : Type :=
  | Static (r : Response)
  | Deferred (p : Promise)
  | Handler (f : HandlerData -> Eff World Value).

(** [enum Method] *)
Inductive Method : Type := GET | POST | PUT | DELETE | PATCH.

Definition Method_value (m : Method) : string :=
  match m with
  | GET => "GET"
  | POST => "POST"
  | PUT => "PUT"
  | DELETE => "DELETE"
  | PATCH => "PATCH"
  end.

(** [MethodResponses = Partial<Record<Method, ResponseLike>>] is, at run
    time, a plain object: its own properties are a finite map from strings,
    and its prototype is [Object.prototype].  A property is present with a
    [ResponseLike] as its value; a property set to [undefined] and a
    mapping changed by its owner after [route] stored it are left out. *)
Abbreviation MethodResponses := (gmap string ResponseLike).

(** The mapping has the declared type when its own keys are [Method]s. *)
Definition well_typed (m : MethodResponses) : Prop :=
  forall k, is_Some (m !! k) -> exists x, k = Method_value x.

(** The property names of [Object.prototype]. *)
Definition Object_prototype_keys : list string :=
  [ "constructor"; "__defineGetter__"; "__defineSetter__"; "hasOwnProperty";
    "__lookupGetter__"; "__lookupSetter__"; "isPrototypeOf";
    "propertyIsEnumerable"; "toString"; "valueOf"; "__proto__";
    "toLocaleString" ].

Definition inherited (key : string) : bool :=
  existsb (String.eqb key) Object_prototype_keys.

Definition has_own (key : string) (o : MethodResponses) : bool :=
  match o !! key with
  | Some _ => true
  | None => false
  end.

(** [key in o]: an own property, or one found along the prototype chain. *)
Definition js_in (key : string) (o : MethodResponses) : bool :=
  has_own key o || inherited key.

(** What [o[key]] evaluates to. *)
Inductive Member : Type :=
  | Own (r : ResponseLike)
  | Inherited (name : string)
  | Undefined.

Definition js_get (o : MethodResponses) (key : string) : Member :=
  match o !! key with
  | Some r => Own r
  | None => if inherited key then Inherited key else Undefined
  end.

(** Every member of [Object.prototype] is a function, except the accessor
    [__proto__], whose value on a plain object is [Object.prototype]. *)
Definition inherited_is_function (name : string) : bool :=
  negb (String.eqb name "__proto__").

(** [f(data)] for a member [f] of [Object.prototype], called as a plain
    function (so [this] is [undefined]): [Object(data)] is [data],
    [toString] answers for [undefined], the others fail converting [this]
    to an object. *)
Definition Object_prototype_call (name : string) (data : HandlerData)
  : Completion Value :=
  if String.eqb name "constructor" then Normal (VData data)
  else if String.eqb name "toString" then Normal (VString "[object Undefined]")
  else Throw TypeError.

(** [if (query[key]) query[key] = decodeURIComponent(query[key]!)]: only a
    non-empty string is truthy. *)
Definition decode_group (v : option string) : Completion (option string) :=
  match v with
  | Some (String c s) =>
      match decodeURIComponent (String c s) with
      | Normal d => Normal (Some d)
      | Throw e => Throw e
      end
  | Some EmptyString => Normal (Some EmptyString)
  | None => Normal None
  end.

(** [for (const key in query) ...]: the groups are rewritten in place, in
    order; the first failing decode ends the loop. *)
Fixpoint decode_groups (query : Groups) : Completion Groups :=
  match query with
  | [] => Normal []
  | (key, v) :: rest =>
      match decode_group v with
      | Throw e => Throw e
      | Normal v' =>
          match decode_groups rest with
          | Throw e => Throw e
          | Normal rest' => Normal ((key, v') :: rest')
          end
      end
  end.

End Model.

Abbreviation MethodResponses := (gmap string ResponseLike).

Arguments World {RT}.
Arguments ResponseLike {RT}.

(** ** The first version of [class Router] *)

Module Router.
Section Router.
Context {RT : Runtime}.

(** The fields of the object: [_routes]. *)
Record Router : Type := mkRouter {
  _routes : list (URLPattern * MethodResponses)
}.

(** [new Router()] *)
Definition new : Router := mkRouter [].

(** The [for ... of] loop of [handler], over the entries still to visit. *)
Fixpoint handler_loop (routes : list (URLPattern * MethodResponses))
    (request : Request) (info : ServeHandlerInfo)
  : Eff (Router * World) Value :=
  fun '(this, w) =>
  match routes with
  | [] =>
      let '(r, w') := new_Response None 404 w in
      (Normal (VResponse r), (this, w'))
  | (pattern, methodResponses) :: rest =>
      if negb (js_in (method request) methodResponses)
      then handler_loop rest request info (this, w)
      else if negb (test pattern (url request))
      then handler_loop rest request info (this, w)
      else
        match js_get methodResponses (method request) with
        | Own (Handler response) =>
            match exec pattern (url request) with
            | None => (Throw TypeError, (this, w))
            | Some query =>
                match decode_groups query with
                | Throw e => (Throw e, (this, w))
                | Normal query' =>
                    let '(c, w') := response (mkData request info query') w in
                    (c, (this, w'))
                end
            end
        | Own (Static response) => (Normal (VResponse response), (this, w))
        | Own (Deferred response) => (Normal (VPromise response), (this, w))
        | Inherited name =>
            if inherited_is_function name then
              match exec pattern (url request) with
              | None => (Throw TypeError, (this, w))
              | Some query =>
                  match decode_groups query with
                  | Throw e => (Throw e, (this, w))
                  | Normal query' =>
                      (Object_prototype_call name (mkData request info query'),
                       (this, w))
                  end
              end
            else (Normal VObjectPrototype, (this, w))
        | Undefined => (Normal VUndefined, (this, w))
        end
  end.

Definition handler (request : Request) (info : ServeHandlerInfo)
  : Eff (Router * World) Value :=
  fun '(this, w) => handler_loop (_routes this) request info (this, w).

(** [this._routes.push([new URLPattern({ pathname: pattern }), methods])]:
    the argument is evaluated first, so a template the constructor rejects
    leaves the array as it was. *)
Definition route (pattern : string) (methods : MethodResponses)
  : Eff (Router * World) unit :=
  fun '(this, w) =>
  match newURLPattern pattern with
  | None => (Throw TypeError, (this, w))
  | Some p => (Normal tt, (mkRouter (_routes this ++ [(p, methods)]), w))
  end.

Definition get (pattern : string) (response : ResponseLike)
  : Eff (Router * World) unit :=
  fun '(this, w) =>
  match newURLPattern pattern with
  | None => (Throw TypeError, (this, w))
  | Some p =>
      (Normal tt, (mkRouter (_routes this ++ [(p, {[ "GET" := response ]})]), w))
  end.

Definition post (pattern : string) (response : ResponseLike)
  : Eff (Router * World) unit :=
  fun '(this, w) =>
  match newURLPattern pattern with
  | None => (Throw TypeError, (this, w))
  | Some p =>
      (Normal tt, (mkRouter (_routes this ++ [(p, {[ "POST" := response ]})]), w))
  end.

Definition put (pattern : string) (response : ResponseLike)
  : Eff (Router * World) unit :=
  fun '(this, w) =>
  match newURLPattern pattern with
  | None => (Throw TypeError, (this, w))
  | Some p =>
      (Normal tt, (mkRouter (_routes this ++ [(p, {[ "PUT" := response ]})]), w))
  end.

Definition delete (pattern : string) (response : ResponseLike)
  : Eff (Router * World) unit :=
  fun '(this, w) =>
  match newURLPattern pattern with
  | None => (Throw TypeError, (this, w))
  | Some p =>
      (Normal tt,
       (mkRouter (_routes this ++ [(p, {[ "DELETE" := response ]})]), w))
  end.

Definition patch (pattern : string) (response : ResponseLike)
  : Eff (Router * World) unit :=
  fun '(this, w) =>
  match newURLPattern pattern with
  | None => (Throw TypeError, (this, w))
  | Some p =>
      (Normal tt,
       (mkRouter (_routes this ++ [(p, {[ "PATCH" := response ]})]), w))
  end.

End Router.
End Router.

(** ** The second version of [class Router] *)

Module Router2.
Section Router2.
Context {RT : Runtime}.

(** The fields of the object: [_routes] and [_defaultResponse]. *)
Record Router : Type := mkRouter {
  _routes : list (URLPattern * MethodResponses);
  _defaultResponse : Response
}.

(** [new Router()]: the field initialisers run, the second one builds the
    response every miss is answered with. *)
Definition new : World -> Router * World :=
  fun w =>
  let '(r, w') := new_Response None 404 w in
  (mkRouter [] r, w').

Fixpoint handler_loop (routes : list (URLPattern * MethodResponses))
    (request : Request) (info : ServeHandlerInfo)
  : Eff (Router * World) Value :=
  fun '(this, w) =>
  match routes with
  | [] => (Normal (VResponse (_defaultResponse this)), (this, w))
  | (pattern, methodResponses) :: rest =>
      if negb (js_in (method request) methodResponses)
      then handler_loop rest request info (this, w)
      else if negb (test pattern (url request))
      then handler_loop rest request info (this, w)
      else
        match js_get methodResponses (method request) with
        | Own (Handler response) =>
            match exec pattern (url request) with
            | None => (Throw TypeError, (this, w))
            | Some query =>
                match decode_groups query with
                | Throw e => (Throw e, (this, w))
                | Normal query' =>
                    let '(c, w') := response (mkData request info query') w in
                    (c, (this, w'))
                end
            end
        | Own (Static response) => (Normal (VResponse response), (this, w))
        | Own (Deferred response) => (Normal (VPromise response), (this, w))
        | Inherited name =>
            if inherited_is_function name then
              match exec pattern (url request) with
              | None => (Throw TypeError, (this, w))
              | Some query =>
                  match decode_groups query with
                  | Throw e => (Throw e, (this, w))
                  | Normal query' =>
                      (Object_prototype_call name (mkData request info query'),
                       (this, w))
                  end
              end
            else (Normal VObjectPrototype, (this, w))
        | Undefined => (Normal VUndefined, (this, w))
        end
  end.

Definition handler (request : Request) (info : ServeHandlerInfo)
  : Eff (Router * World) Value :=
  fun '(this, w) => handler_loop (_routes this) request info (this, w).

Definition push (this : Router) (e : URLPattern * MethodResponses) : Router :=
  mkRouter (_routes this ++ [e]) (_defaultResponse this).

Definition route (pattern : string) (methods : MethodResponses)
  : Eff (Router * World) unit :=
  fun '(this, w) =>
  match newURLPattern pattern with
  | None => (Throw TypeError, (this, w))
  | Some p => (Normal tt, (push this (p, methods), w))
  end.

Definition get (pattern : string) (response : ResponseLike)
  : Eff (Router * World) unit :=
  fun '(this, w) =>
  match newURLPattern pattern with
  | None => (Throw TypeError, (this, w))
  | Some p => (Normal tt, (push this (p, {[ "GET" := response ]}), w))
  end.

Definition post (pattern : string) (response : ResponseLike)
  : Eff (Router * World) unit :=
  fun '(this, w) =>
  match newURLPattern pattern with
  | None => (Throw TypeError, (this, w))
  | Some p => (Normal tt, (push this (p, {[ "POST" := response ]}), w))
  end.

Definition put (pattern : string) (response : ResponseLike)
  : Eff (Router * World) unit :=
  fun '(this, w) =>
  match newURLPattern pattern with
  | None => (Throw TypeError, (this, w))
  | Some p => (Normal tt, (push this (p, {[ "PUT" := response ]}), w))
  end.

Definition delete (pattern : string) (response : ResponseLike)
  : Eff (Router * World) unit :=
  fun '(this, w) =>
  match newURLPattern pattern with
  | None => (Throw TypeError, (this, w))
  | Some p => (Normal tt, (push this (p, {[ "DELETE" := response ]}), w))
  end.

Definition patch (pattern : string) (response : ResponseLike)
  : Eff (Router * World) unit :=
  fun '(this, w) =>
  match newURLPattern pattern with
  | None => (Throw TypeError, (this, w))
  | Some p => (Normal tt, (push this (p, {[ "PATCH" := response ]}), w))
  end.

End Router2.
End Router2.

(** ** Vocabulary of the statements *)

Section Dispatch.
Context {RT : Runtime}.

Abbreviation Entry := (URLPattern * MethodResponses)%type.

(** The two tests an entry has to pass: lines [if (!(request.method in
    methodResponses)) continue;] and [if (!pattern.test(request.url))
    continue;]. *)
Definition matches (request : Request) (e : Entry) : bool :=
  js_in (method request) (snd e) && test (fst e) (url request).

(** What the scan does with the entry it stops at: the statements after the
    two tests, for a router object of any shape [R]. *)
Definition respond {R : Type} (e : Entry) (request : Request)
    (info : ServeHandlerInfo) : Eff (R * World) Value :=
  fun '(this, w) =>
  match js_get (snd e) (method request) with
  | Own (Handler response) =>
      match exec (fst e) (url request) with
      | None => (Throw TypeError, (this, w))
      | Some query =>
          match decode_groups query with
          | Throw err => (Throw err, (this, w))
          | Normal query' =>
              let '(c, w') := response (mkData request info query') w in
              (c, (this, w'))
          end
      end
  | Own (Static response) => (Normal (VResponse response), (this, w))
  | Own (Deferred response) => (Normal (VPromise response), (this, w))
  | Inherited name =>
      if inherited_is_function name then
        match exec (fst e) (url request) with
        | None => (Throw TypeError, (this, w))
        | Some query =>
            match decode_groups query with
            | Throw err => (Throw err, (this, w))
            | Normal query' =>
                (Object_prototype_call name (mkData request info query'),
                 (this, w))
            end
        end
      else (Normal VObjectPrototype, (this, w))
  | Undefined => (Normal VUndefined, (this, w))
  end.

(** The entry the scan stops at, with its index, if there is one. *)
Definition selected (routes : list Entry) (request : Request)
  : option (nat * Entry) :=
  list_find (fun e => matches request e = true) routes.

(** What each version answers when the scan runs off the end of the array. *)
Definition miss1 : Eff (Router.Router * World) Value :=
  fun '(this, w) =>
  let '(r, w') := new_Response None 404 w in
  (Normal (VResponse r), (this, w')).

Definition miss2 : Eff (Router2.Router * World) Value :=
  fun '(this, w) => (Normal (VResponse (Router2._defaultResponse this)), (this, w)).

(** The answer to a request, given the entry the scan stops at. *)
Definition answer {R : Type} (miss : Eff (R * World) Value)
    (sel : option (nat * Entry)) (request : Request) (info : ServeHandlerInfo)
  : Eff (R * World) Value :=
  match sel with
  | Some (_, e) => respond e request info
  | None => miss
  end.

(** How a capture reaches the handler: a non-empty string decoded, an empty
    string or [undefined] as it is. *)
Definition passed (v v' : option string) : Prop :=
  match v with
  | Some (String c s) =>
      exists d, decodeURIComponent (String c s) = Normal d /\ v' = Some d
  | Some EmptyString => v' = Some EmptyString
  | None => v' = None
  end.

(** A capture without a percent sign holds no escape. *)
Definition no_escape (s : string) : bool :=
  forallb (fun c => negb (Ascii.eqb c "%"%char)) (list_ascii_of_string s).

(** The default response of the specification: status 404, no body. *)
Definition not_found (v : Value) : Prop :=
  exists r, v = VResponse r /\ status r = 404%Z /\ body r = None.

(** One call of the registration API. *)
Inductive Registration : Type :=
  | CallRoute (pattern : string) (methods : MethodResponses)
  | CallGet (pattern : string) (response : ResponseLike)
  | CallPost (pattern : string) (response : ResponseLike)
  | CallPut (pattern : string) (response : ResponseLike)
  | CallDelete (pattern : string) (response : ResponseLike)
  | CallPatch (pattern : string) (response : ResponseLike).

(** The template and the mapping a call registers. *)
Definition registered (c : Registration) : string * MethodResponses :=
  match c with
  | CallRoute t m => (t, m)
  | CallGet t p => (t, {[ Method_value GET := p ]})
  | CallPost t p => (t, {[ Method_value POST := p ]})
  | CallPut t p => (t, {[ Method_value PUT := p ]})
  | CallDelete t p => (t, {[ Method_value DELETE := p ]})
  | CallPatch t p => (t, {[ Method_value PATCH := p ]})
  end.

(** The entry a call puts into the array, when the pattern constructor
    accepts its template, and the way the call ends. *)
Definition entry_of (c : Registration) : option (URLPattern * MethodResponses) :=
  match newURLPattern (fst (registered c)) with
  | Some p => Some (p, snd (registered c))
  | None => None
  end.

Definition outcome (c : Registration) : Completion unit :=
  match newURLPattern (fst (registered c)) with
  | Some _ => Normal tt
  | None => Throw TypeError
  end.

(** The calls keep to the declared types when the mapping given to [route]
    does; the five others build a well-typed mapping themselves. *)
Definition typed_call (c : Registration) : Prop :=
  match c with
  | CallRoute _ m => well_typed m
  | _ => True
  end.

Definition call1 (c : Registration) : Eff (Router.Router * World) unit :=
  match c with
  | CallRoute t m => Router.route t m
  | CallGet t p => Router.get t p
  | CallPost t p => Router.post t p
  | CallPut t p => Router.put t p
  | CallDelete t p => Router.delete t p
  | CallPatch t p => Router.patch t p
  end.

Definition call2 (c : Registration) : Eff (Router2.Router * World) unit :=
  match c with
  | CallRoute t m => Router2.route t m
  | CallGet t p => Router2.get t p
  | CallPost t p => Router2.post t p
  | CallPut t p => Router2.put t p
  | CallDelete t p => Router2.delete t p
  | CallPatch t p => Router2.patch t p
  end.

(** Registration calls made one after the other, each on the state the one
    before left, with the way each of them ended.  The caller goes on after
    a call that threw; a script that stops at its first exception is the
    list cut after that call. *)
Fixpoint register_all {S : Type} (call : Registration -> Eff S unit)
    (cs : list Registration) (s : S) : list (Completion unit) * S :=
  match cs with
  | [] => ([], s)
  | c :: rest =>
      let '(r, s') := call c s in
      let '(rs, s'') := register_all call rest s' in
      (r :: rs, s'')
  end.

End Dispatch.

Abbreviation Entry := (URLPattern * MethodResponses)%type.

(** ** A runtime to compute with

    The statements below hold for every [Runtime].  To run the router on
    concrete requests this instance models [URLPattern] on the templates
    made of [/]-separated segments that are either literal (letters, digits,
    [-], [_], [.], [~]) or a named group [:name], and on URLs
    [scheme://authority/path?query#fragment] whose path is already in
    normal form.  On these a literal segment matches itself and a group
    matches one non-empty segment and captures it as it stands.  A template
    outside this fragment is not modelled: the instance rejects it. *)

Module Segments.

Inductive Segment : Type :=
  | Lit (s : string)
  | Group (name : string).

Fixpoint split (sep : ascii) (s : string) : list string :=
  match s with
  | EmptyString => [EmptyString]
  | String c s' =>
      if Ascii.eqb c sep then EmptyString :: split sep s'
      else match split sep s' with
           | [] => [String c EmptyString]
           | x :: xs => String c x :: xs
           end
  end.

Definition plain (c : ascii) : bool :=
  let n := N_of_ascii c in
  (((48 <=? n) && (n <=? 57)) || ((65 <=? n) && (n <=? 90))
   || ((97 <=? n) && (n <=? 122))
   || (n =? 45) || (n =? 95) || (n =? 46) || (n =? 126))%N.

Definition name_char (c : ascii) : bool :=
  let n := N_of_ascii c in
  (((48 <=? n) && (n <=? 57)) || ((65 <=? n) && (n <=? 90))
   || ((97 <=? n) && (n <=? 122)) || (n =? 95))%N.

Definition all_chars (p : ascii -> bool) (s : string) : bool :=
  forallb p (list_ascii_of_string s).

Definition segment (s : string) : option Segment :=
  match s with
  | String c name =>
      if Ascii.eqb c ":"%char then
        match name with
        | EmptyString => None
        | String _ _ => if all_chars name_char name then Some (Group name) else None
        end
      else if all_chars plain s then Some (Lit s) else None
  | EmptyString => Some (Lit EmptyString)
  end.

Fixpoint segments (l : list string) : option (list Segment) :=
  match l with
  | [] => Some []
  | s :: rest =>
      match segment s, segments rest with
      | Some x, Some xs => Some (x :: xs)
      | _, _ => None
      end
  end.

Fixpoint group_names (p : list Segment) : list string :=
  match p with
  | [] => []
  | Lit _ :: rest => group_names rest
  | Group n :: rest => n :: group_names rest
  end.

Fixpoint distinct (l : list string) : bool :=
  match l with
  | [] => true
  | x :: rest => negb (existsb (String.eqb x) rest) && distinct rest
  end.

(** [new URLPattern({ pathname: template })] *)
Definition compile (template : string) : option (list Segment) :=
  match template with
  | String c _ =>
      if Ascii.eqb c "/"%char then
        match segments (split "/"%char template) with
        | Some p => if distinct (group_names p) then Some p else None
        | None => None
        end
      else None
  | EmptyString => None
  end.

(** The path of a URL. *)
Fixpoint after_scheme (s : string) : option string :=
  match s with
  | EmptyString => None
  | String c s' =>
      if Ascii.eqb c ":"%char then
        match s' with
        | String a (String b rest) =>
            if Ascii.eqb a "/"%char && Ascii.eqb b "/"%char then Some rest
            else after_scheme s'
        | _ => None
        end
      else after_scheme s'
  end.

Fixpoint from_slash (s : string) : string :=
  match s with
  | EmptyString => "/"
  | String c s' => if Ascii.eqb c "/"%char then s else from_slash s'
  end.

Fixpoint upto_query (s : string) : string :=
  match s with
  | EmptyString => EmptyString
  | String c s' =>
      if Ascii.eqb c "?"%char || Ascii.eqb c "#"%char then EmptyString
      else String c (upto_query s')
  end.

Definition pathname (u : string) : option string :=
  match after_scheme u with
  | Some rest => Some (upto_query (from_slash rest))
  | None => None
  end.

Fixpoint match_segments (p : list Segment) (l : list string) : option Groups :=
  match p, l with
  | [], [] => Some []
  | Lit s :: p', x :: l' =>
      if String.eqb s x then match_segments p' l' else None
  | Group n :: p', x :: l' =>
      match x with
      | EmptyString => None
      | String _ _ =>
          match match_segments p' l' with
          | Some g => Some ((n, Some x) :: g)
          | None => None
          end
      end
  | _, _ => None
  end.

Definition pattern_exec (p : list Segment) (u : string) : option Groups :=
  match pathname u with
  | Some path => match_segments p (split "/"%char path)
  | None => None
  end.

Definition pattern_test (p : list Segment) (u : string) : bool :=
  match pattern_exec p u with
  | Some _ => true
  | None => false
  end.

(** The application state of the examples: the lines written by
    [console.log]. *)
Definition runtime : Runtime := {|
  URLPattern := list Segment;
  newURLPattern := compile;
  test := pattern_test;
  exec := pattern_exec;
  AppState := list string
|}.

End Segments.

(** ** Requests and routers of the examples *)

Section ExampleData.
#[local] Existing Instance Segments.runtime.

Definition world0 : World := mkWorld 0 [].
Definition peer : ServeHandlerInfo := mkInfo "127.0.0.1".

(** [({ query }) => new Response(query.<first group>, { status: 200 })] *)
Definition echo : HandlerData -> Eff World Value :=
  fun d w =>
  let b := match query d with
           | (_, v) :: _ => v
           | [] => None
           end in
  let '(r, w') := new_Response b 200 w in
  (Normal (VResponse r), w').

(** [() => { throw new Error("boom") }] *)
Definition failing : HandlerData -> Eff World Value :=
  fun _ w => (Throw (UserError "boom"), w).

Definition first_response : Response := mkResponse 1000 200 (Some "first").
Definition second_response : Response := mkResponse 1001 200 (Some "second").

(** The entries [get("/x", first)] and [post("/:seg", second)] make. *)
Definition x_get : Entry :=
  ([Segments.Lit ""; Segments.Lit "x"], {[ "GET" := Static first_response ]}).
Definition seg_post : Entry :=
  ([Segments.Lit ""; Segments.Group "seg"], {[ "POST" := Static second_response ]}).

(** A router of the first version after its registration calls. *)
Definition started (cs : list Registration) : Router.Router * World :=
  snd (register_all call1 cs (Router.new, world0)).

(** One of the second version. *)
Definition started2 (cs : list Registration) : Router2.Router * World :=
  snd (register_all call2 cs (Router2.new world0)).

End ExampleData.

(** * Properties *)

(** ** The scan, the selected entry and the registration calls *)

Section Theory.
Context {RT : Runtime}.

Implicit Types (request : Request) (info : ServeHandlerInfo) (w : World).
Implicit Types (routes : list (URLPattern * MethodResponses)).

Lemma selected_nil request : selected [] request = None.
Proof. reflexivity. Qed.

Lemma selected_cons_hit routes request e :
  matches request e = true -> selected (e :: routes) request = Some (0, e).
Proof.
  intros H. unfold selected. cbn. destruct (decide (matches request e = true)); [reflexivity | contradiction].
Qed.

Lemma selected_cons_skip routes request e :
  matches request e = false ->
  selected (e :: routes) request = prod_map S id <$> selected routes request.
Proof.
  intros H. unfold selected. cbn.
  destruct (decide (matches request e = true)) as [E | _]; [congruence | reflexivity].
Qed.

Lemma answer_skip {R : Type} (miss : Eff (R * World) Value)
    (sel : option (nat * Entry)) request info :
  answer miss (prod_map S id <$> sel) request info = answer miss sel request info.
Proof. destruct sel as [[k e] |]; reflexivity. Qed.

(** The loop of the first version is: find the entry, then answer. *)
Lemma handler_loop1_answer routes request info (this : Router.Router) w :
  Router.handler_loop routes request info (this, w)
  = answer miss1 (selected routes request) request info (this, w).
Proof.
  induction routes as [| [pattern methodResponses] rest IH].
  - reflexivity.
  - destruct (matches request (pattern, methodResponses)) eqn:M.
    + rewrite (selected_cons_hit _ _ _ M).
      unfold matches in M. cbn [fst snd] in M.
      apply andb_true_iff in M as [Hin Htest].
      cbn [Router.handler_loop answer]. rewrite Hin, Htest. reflexivity.
    + rewrite (selected_cons_skip _ _ _ M), answer_skip, <- IH.
      unfold matches in M. cbn [fst snd] in M.
      cbn [Router.handler_loop].
      destruct (js_in (method request) methodResponses); [| reflexivity].
      cbn in M. rewrite M. reflexivity.
Qed.

Lemma handler_loop2_answer routes request info (this : Router2.Router) w :
  Router2.handler_loop routes request info (this, w)
  = answer miss2 (selected routes request) request info (this, w).
Proof.
  induction routes as [| [pattern methodResponses] rest IH].
  - reflexivity.
  - destruct (matches request (pattern, methodResponses)) eqn:M.
    + rewrite (selected_cons_hit _ _ _ M).
      unfold matches in M. cbn [fst snd] in M.
      apply andb_true_iff in M as [Hin Htest].
      cbn [Router2.handler_loop answer]. rewrite Hin, Htest. reflexivity.
    + rewrite (selected_cons_skip _ _ _ M), answer_skip, <- IH.
      unfold matches in M. cbn [fst snd] in M.
      cbn [Router2.handler_loop].
      destruct (js_in (method request) methodResponses); [| reflexivity].
      cbn in M. rewrite M. reflexivity.
Qed.

Lemma handler1_answer request info (this : Router.Router) w :
  Router.handler request info (this, w)
  = answer miss1 (selected (Router._routes this) request) request info (this, w).
Proof. apply handler_loop1_answer. Qed.

Lemma handler2_answer request info (this : Router2.Router) w :
  Router2.handler request info (this, w)
  = answer miss2 (selected (Router2._routes this) request) request info (this, w).
Proof. apply handler_loop2_answer. Qed.

End Theory.

(** ** Dispatch *)

Section Claims.
Context {RT : Runtime}.

Implicit Types (request : Request) (info : ServeHandlerInfo) (w : World).

Lemma selected_Some (routes : list Entry) request k e :
  selected routes request = Some (k, e) <->
  routes !! k = Some e /\ matches request e = true /\
  forall k' e', k' < k -> routes !! k' = Some e' -> matches request e' = false.
Proof.
  unfold selected. rewrite list_find_Some. split.
  - intros (Hk & Hm & Hbefore). repeat split; [assumption .. |].
    intros k' e' Hlt He'. apply not_true_is_false. eauto.
  - intros (Hk & Hm & Hbefore). repeat split; [assumption .. |].
    intros j y Hy Hlt Hm'. specialize (Hbefore j y Hlt Hy). congruence.
Qed.

Lemma selected_None (routes : list Entry) request :
  selected routes request = None <->
  forall e, e ∈ routes -> matches request e = false.
Proof.
  unfold selected. rewrite list_find_None, Forall_forall. split.
  - intros H e He. apply not_true_is_false. auto.
  - intros H e He Hm. specialize (H e He). congruence.
Qed.

Lemma selected_exists (routes : list Entry) request i e :
  routes !! i = Some e -> matches request e = true ->
  exists k e', selected routes request = Some (k, e') /\ k <= i.
Proof.
  intros Hi Hm.
  destruct (selected routes request) as [[k e'] |] eqn:Hsel.
  - exists k, e'. split; [reflexivity |].
    apply selected_Some in Hsel as (_ & _ & Hbefore).
    destruct (decide (k <= i)) as [| Hgt]; [assumption |].
    assert (i < k) as Hlt by lia.
    specialize (Hbefore i e Hlt Hi). congruence.
  - rewrite selected_None in Hsel.
    assert (e ∈ routes) as He by (apply list_elem_of_lookup; eauto).
    specialize (Hsel e He). congruence.
Qed.

(** C1.  Among the entries that pass both tests for a request the scan
    stops at the earliest: when the entries at positions [i < j] both pass,
    [handler] answers with the producer of an entry at a position [k <= i]
    (so never with the one at [j]), the first entry of the array that
    passes; it is the entry at [i] itself when no entry before it passes. *)
Theorem first_match_wins (this : Router.Router) w request info i j e1 e2 :
  i < j ->
  Router._routes this !! i = Some e1 ->
  Router._routes this !! j = Some e2 ->
  matches request e1 = true ->
  matches request e2 = true ->
  exists k e,
    k <= i /\ k < j /\
    Router._routes this !! k = Some e /\
    matches request e = true /\
    (forall k' e', k' < k -> Router._routes this !! k' = Some e' ->
                   matches request e' = false) /\
    Router.handler request info (this, w) = respond e request info (this, w) /\
    ((forall i' e', i' < i -> Router._routes this !! i' = Some e' ->
                    matches request e' = false) ->
     k = i /\ e = e1).
Proof.
  intros Hij Hi Hj M1 M2.
  destruct (selected_exists _ _ _ _ Hi M1) as (k & e & Hsel & Hki).
  exists k, e.
  pose proof Hsel as Hsel'. apply selected_Some in Hsel' as (Hk & Hm & Hbefore).
  split; [exact Hki |]. split; [lia |]. split; [exact Hk |].
  split; [exact Hm |]. split; [exact Hbefore |].
  split; [rewrite handler1_answer, Hsel; reflexivity |].
  intros Hnone.
  destruct (decide (k = i)) as [-> | Hne]; [split; congruence |].
  assert (k < i) as Hlt by lia.
  specialize (Hnone k e Hlt Hk). congruence.
Qed.

Lemma handler1_miss (this : Router.Router) w request info :
  selected (Router._routes this) request = None ->
  Router.handler request info (this, w)
  = (Normal (VResponse (mkResponse (next_id w) 404 None)),
     (this, mkWorld (S (next_id w)) (app_state w))).
Proof. intros Hsel. rewrite handler1_answer, Hsel. reflexivity. Qed.

(** For the five methods [in] is the test for an own key. *)
Lemma supported_method_own (m : Method) (o : MethodResponses) :
  js_in (Method_value m) o = has_own (Method_value m) o.
Proof. unfold js_in. destruct m; cbn; apply orb_false_r. Qed.

(** What the scan does on a miss, in terms of the test the code makes.
    When no entry both passes [request.method in methodResponses] and has a
    pattern that matches the URL, [handler] returns a new response with
    status 404 and no body, and leaves the router as it is.  An entry whose
    pattern matches but which fails the [in] test is stepped over: the scan
    goes on exactly as if the entry were not in the array.  For the five
    methods of the enumeration [in] holds exactly when the mapping has the
    key. *)
Theorem no_match_is_404 :
  (forall (this : Router.Router) w request info,
     (forall e, e ∈ Router._routes this ->
                ~ (js_in (method request) (snd e) = true /\
                   test (fst e) (url request) = true)) ->
     exists r,
       Router.handler request info (this, w)
       = (Normal (VResponse r), (this, mkWorld (S (next_id w)) (app_state w))) /\
       status r = 404%Z /\ body r = None)
  /\
  (forall (pre post : list Entry) (e : Entry) request info
          (s : Router.Router * World),
     test (fst e) (url request) = true ->
     js_in (method request) (snd e) = false ->
     Router.handler_loop (pre ++ e :: post) request info s
     = Router.handler_loop (pre ++ post) request info s)
  /\
  (forall (m : Method) (o : MethodResponses),
     js_in (Method_value m) o = true <-> is_Some (o !! Method_value m)).
Proof.
  split; [| split].
  - intros this w request info Hnone.
    assert (selected (Router._routes this) request = None) as Hsel.
    { apply selected_None. intros e He. specialize (Hnone e He).
      unfold matches. apply not_true_is_false. intros Hm.
      apply andb_true_iff in Hm. tauto. }
    rewrite (handler1_miss _ _ _ _ Hsel).
    eexists. split; [reflexivity |]. split; reflexivity.
  - intros pre post [pattern methodResponses] request info s _ Hin.
    cbn [fst snd] in Hin.
    induction pre as [| [p m] pre IH]; destruct s as [this w].
    + cbn [List.app Router.handler_loop]. rewrite Hin. reflexivity.
    + cbn [List.app Router.handler_loop]. rewrite !IH. reflexivity.
  - intros m o. rewrite supported_method_own. unfold has_own.
    destruct (o !! Method_value m) as [r |].
    + split; [eauto | reflexivity].
    + split; [discriminate | intros [r Hr]; discriminate].
Qed.

(** The loop over the groups hands every capture on as [passed] says. *)
Lemma decode_groups_passed (groups q : Groups) :
  decode_groups groups = Normal q ->
  Forall2 (fun g g' => fst g' = fst g /\ passed (snd g) (snd g')) groups q.
Proof.
  revert q. induction groups as [| [name v] rest IH]; intros q Hq.
  - injection Hq as <-. constructor.
  - cbn [decode_groups] in Hq.
    destruct (decode_group v) as [v' |] eqn:Hv; [| discriminate].
    destruct (decode_groups rest) as [rest' |]; [| discriminate].
    injection Hq as <-. constructor; [| apply IH; reflexivity].
    split; [reflexivity |]. cbn [snd].
    destruct v as [[| c s] |]; cbn in Hv.
    + injection Hv as <-. reflexivity.
    + destruct (decodeURIComponent (String c s)) as [d |] eqn:Hd; [| discriminate].
      injection Hv as <-. exists d. split; [| reflexivity].
      exact Hd.
    + injection Hv as <-. reflexivity.
Qed.

Lemma decode_groups_defined (groups : Groups) :
  (forall name s, (name, Some s) ∈ groups ->
                  exists d, decodeURIComponent s = Normal d) ->
  exists q, decode_groups groups = Normal q.
Proof.
  induction groups as [| [name v] rest IH]; intros Hall.
  - exists []. reflexivity.
  - destruct IH as [rest' Hrest].
    { intros n s Hn. apply (Hall n s). right. exact Hn. }
    cbn [decode_groups]. rewrite Hrest.
    destruct v as [[| c s] |]; cbn [decode_group].
    + eexists. reflexivity.
    + destruct (Hall name (String c s)) as [d Hd]; [left |].
      rewrite Hd. eexists. reflexivity.
    + eexists. reflexivity.
Qed.

(** C3.  When the scan stops at an entry whose producer for the method is a
    handler function, and the captures decode, the handler is called with
    the request, the info and the captures of [exec], of which every
    non-empty string has been replaced by its [decodeURIComponent] and every
    empty string and every [undefined] is as [exec] gave it.  The decoding
    turns [a%20b] into [a b] and [a%2Fb] into [a/b]. *)
Theorem captures_are_decoded (this : Router.Router) w request info k e f groups :
  selected (Router._routes this) request = Some (k, e) ->
  js_get (snd e) (method request) = Own (Handler f) ->
  exec (fst e) (url request) = Some groups ->
  (forall name s, (name, Some s) ∈ groups ->
                  exists d, decodeURIComponent s = Normal d) ->
  (exists q,
     Router.handler request info (this, w)
     = (let '(c, w') := f (mkData request info q) w in (c, (this, w'))) /\
     Forall2 (fun g g' => fst g' = fst g /\ passed (snd g) (snd g')) groups q)
  /\ decodeURIComponent "a%20b" = Normal "a b"
  /\ decodeURIComponent "a%2Fb" = Normal "a/b"
  /\ decode_group (Some "") = Normal (Some "")
  /\ decode_group None = Normal None.
Proof.
  intros Hsel Hget Hexec Hdec.
  split; [| repeat split].
  destruct (decode_groups_defined groups Hdec) as [q Hq].
  exists q. split; [| apply decode_groups_passed; exact Hq].
  rewrite handler1_answer, Hsel. cbn [answer]. unfold respond.
  rewrite Hget, Hexec, Hq. reflexivity.
Qed.

(** C9.  When the scan stops at an entry whose producer is a handler
    function and the call of the handler fails, by throwing [err] or by
    returning a promise that rejects, [handler] ends the same way: it throws
    the same [err], or returns the same promise; the router is as before and
    the world is as the handler left it. *)
Theorem handler_failure_propagates (this : Router.Router) w request info
    k e f groups q c w' :
  selected (Router._routes this) request = Some (k, e) ->
  js_get (snd e) (method request) = Own (Handler f) ->
  exec (fst e) (url request) = Some groups ->
  decode_groups groups = Normal q ->
  f (mkData request info q) w = (c, w') ->
  (exists err, c = Throw err) \/
  (exists p err, c = Normal (VPromise p) /\ settlement p = Rejected err) ->
  Router.handler request info (this, w) = (c, (this, w')).
Proof.
  intros Hsel Hget Hexec Hq Hf _.
  rewrite handler1_answer, Hsel. cbn [answer]. unfold respond.
  rewrite Hget, Hexec, Hq, Hf. reflexivity.
Qed.

(** ** Registration *)

(** C5.  [get], [post], [put], [delete] and [patch] do to the router what
    [route] does with the one-key mapping of their method, whatever the
    template (also when the pattern constructor rejects it) and whatever the
    state; so [handler] answers alike on the two routers. *)
Theorem convenience_is_route (t : string) (p : ResponseLike)
    (s : Router.Router * World) :
  (Router.get t p s = Router.route t {[ Method_value GET := p ]} s /\
   Router.post t p s = Router.route t {[ Method_value POST := p ]} s /\
   Router.put t p s = Router.route t {[ Method_value PUT := p ]} s /\
   Router.delete t p s = Router.route t {[ Method_value DELETE := p ]} s /\
   Router.patch t p s = Router.route t {[ Method_value PATCH := p ]} s)
  /\
  (forall request info,
     Router.handler request info (snd (Router.get t p s))
     = Router.handler request info
         (snd (Router.route t {[ Method_value GET := p ]} s)) /\
     Router.handler request info (snd (Router.post t p s))
     = Router.handler request info
         (snd (Router.route t {[ Method_value POST := p ]} s)) /\
     Router.handler request info (snd (Router.put t p s))
     = Router.handler request info
         (snd (Router.route t {[ Method_value PUT := p ]} s)) /\
     Router.handler request info (snd (Router.delete t p s))
     = Router.handler request info
         (snd (Router.route t {[ Method_value DELETE := p ]} s)) /\
     Router.handler request info (snd (Router.patch t p s))
     = Router.handler request info
         (snd (Router.route t {[ Method_value PATCH := p ]} s))).
Proof.
  destruct s as [this w].
  assert (Router.get t p (this, w)
          = Router.route t {[ Method_value GET := p ]} (this, w)) as Hget
    by (unfold Router.get, Router.route; destruct (newURLPattern t); reflexivity).
  assert (Router.post t p (this, w)
          = Router.route t {[ Method_value POST := p ]} (this, w)) as Hpost
    by (unfold Router.post, Router.route; destruct (newURLPattern t); reflexivity).
  assert (Router.put t p (this, w)
          = Router.route t {[ Method_value PUT := p ]} (this, w)) as Hput
    by (unfold Router.put, Router.route; destruct (newURLPattern t); reflexivity).
  assert (Router.delete t p (this, w)
          = Router.route t {[ Method_value DELETE := p ]} (this, w)) as Hdelete
    by (unfold Router.delete, Router.route; destruct (newURLPattern t); reflexivity).
  assert (Router.patch t p (this, w)
          = Router.route t {[ Method_value PATCH := p ]} (this, w)) as Hpatch
    by (unfold Router.patch, Router.route; destruct (newURLPattern t); reflexivity).
  split; [tauto |].
  intros request info. rewrite Hget, Hpost, Hput, Hdelete, Hpatch. tauto.
Qed.

Lemma call1_cases (c : Registration) (this : Router.Router) w :
  (exists p,
     newURLPattern (fst (registered c)) = Some p /\
     call1 c (this, w)
     = (Normal tt,
        (Router.mkRouter (Router._routes this ++ [(p, snd (registered c))]), w)))
  \/
  (newURLPattern (fst (registered c)) = None /\
   call1 c (this, w) = (Throw TypeError, (this, w))).
Proof.
  destruct c as [t m | t p | t p | t p | t p | t p]; cbn [registered fst snd call1];
    unfold Router.route, Router.get, Router.post, Router.put, Router.delete,
      Router.patch;
    (destruct (newURLPattern t) as [pat |];
     [left; exists pat; split; reflexivity | right; split; reflexivity]).
Qed.

Lemma call2_cases (c : Registration) (this : Router2.Router) w :
  (exists p,
     newURLPattern (fst (registered c)) = Some p /\
     call2 c (this, w)
     = (Normal tt, (Router2.push this (p, snd (registered c)), w)))
  \/
  (newURLPattern (fst (registered c)) = None /\
   call2 c (this, w) = (Throw TypeError, (this, w))).
Proof.
  destruct c as [t m | t p | t p | t p | t p | t p]; cbn [registered fst snd call2];
    unfold Router2.route, Router2.get, Router2.post, Router2.put,
      Router2.delete, Router2.patch;
    (destruct (newURLPattern t) as [pat |];
     [left; exists pat; split; reflexivity | right; split; reflexivity]).
Qed.

Lemma register_all1 (cs : list Registration) (this : Router.Router) w :
  register_all call1 cs (this, w)
  = (map outcome cs,
     (Router.mkRouter (Router._routes this ++ omap entry_of cs), w)).
Proof.
  revert this. induction cs as [| c rest IH]; intros [routes].
  - cbn. rewrite app_nil_r. reflexivity.
  - cbn [register_all map omap list_omap]. unfold entry_of at 1, outcome at 1.
    destruct (call1_cases c (Router.mkRouter routes) w)
      as [(p & Hp & Hc) | (Hp & Hc)]; rewrite Hc, Hp, IH; cbn [Router._routes].
    + rewrite <- app_assoc. reflexivity.
    + reflexivity.
Qed.

(** C6.  Each of [route], [get], [post], [put], [delete], [patch] returns
    nothing and puts exactly one entry, the compiled template with the
    mapping, behind the entries already there, which stay as they are; it
    fails only if the pattern constructor rejects the template, and then the
    array is as before.  So after any number of calls the array holds,
    behind what it held, the entries of the calls that went through, one
    each, in the order of the calls, repeated calls included. *)
Theorem registration_appends :
  (forall (c : Registration) (this : Router.Router) w,
     (exists p,
        newURLPattern (fst (registered c)) = Some p /\
        call1 c (this, w)
        = (Normal tt,
           (Router.mkRouter (Router._routes this ++ [(p, snd (registered c))]),
            w)))
     \/
     (newURLPattern (fst (registered c)) = None /\
      call1 c (this, w) = (Throw TypeError, (this, w))))
  /\
  (forall (cs : list Registration) (this : Router.Router) w,
     register_all call1 cs (this, w)
     = (map outcome cs,
        (Router.mkRouter (Router._routes this ++ omap entry_of cs), w)))
  /\
  (forall (cs : list Registration),
     Forall (fun c => outcome c = Normal tt) cs ->
     length (omap entry_of cs) = length cs).
Proof.
  split; [apply call1_cases |]. split; [apply register_all1 |].
  intros cs Hall. induction Hall as [| c rest Hc _ IH]; [reflexivity |].
  cbn [omap list_omap]. unfold outcome in Hc. unfold entry_of at 1.
  destruct (newURLPattern (fst (registered c))); [| discriminate].
  cbn [length]. rewrite IH. reflexivity.
Qed.

(** Answering does not touch the router object. *)
Lemma respond_this {R : Type} (e : Entry) request info (this : R) w :
  fst (snd (respond e request info (this, w))) = this.
Proof.
  unfold respond.
  destruct (js_get (snd e) (method request)) as [[r | p | f] | name |];
    try reflexivity.
  - destruct (exec (fst e) (url request)) as [groups |]; [| reflexivity].
    destruct (decode_groups groups) as [q |]; [| reflexivity].
    destruct (f (mkData request info q) w). reflexivity.
  - destruct (inherited_is_function name); [| reflexivity].
    destruct (exec (fst e) (url request)) as [groups |]; [| reflexivity].
    destruct (decode_groups groups); reflexivity.
Qed.

(** The answer of an entry does not depend on the router object. *)
Lemma respond_any_router {R R' : Type} (e : Entry) request info
    (this : R) (this' : R') w :
  fst (respond e request info (this, w)) = fst (respond e request info (this', w)) /\
  snd (snd (respond e request info (this, w)))
  = snd (snd (respond e request info (this', w))).
Proof.
  unfold respond.
  destruct (js_get (snd e) (method request)) as [[r | p | f] | name |];
    try (split; reflexivity).
  - destruct (exec (fst e) (url request)) as [groups |]; [| split; reflexivity].
    destruct (decode_groups groups) as [q |]; [| split; reflexivity].
    destruct (f (mkData request info q) w). split; reflexivity.
  - destruct (inherited_is_function name); [| split; reflexivity].
    destruct (exec (fst e) (url request)) as [groups |]; [| split; reflexivity].
    destruct (decode_groups groups); split; reflexivity.
Qed.

Lemma handler1_this (this : Router.Router) w request info :
  fst (snd (Router.handler request info (this, w))) = this.
Proof.
  rewrite handler1_answer.
  destruct (selected (Router._routes this) request) as [[k e] |]; cbn [answer].
  - apply respond_this.
  - reflexivity.
Qed.

Lemma handler2_this (this : Router2.Router) w request info :
  fst (snd (Router2.handler request info (this, w))) = this.
Proof.
  rewrite handler2_answer.
  destruct (selected (Router2._routes this) request) as [[k e] |]; cbn [answer].
  - apply respond_this.
  - reflexivity.
Qed.

(** C8.  Two calls of [handler] with the same request, one after the other,
    on a router whose array is not changed in between: neither call changes
    the router, and both answer from the entry that [selected] finds, which
    depends on the array and the request only; when that producer is a
    response both calls return that very response. *)
Theorem dispatch_is_deterministic (this : Router.Router) w request info :
  let sel := selected (Router._routes this) request in
  let run1 := Router.handler request info (this, w) in
  let run2 := Router.handler request info (snd run1) in
  fst (snd run1) = this /\
  fst (snd run2) = this /\
  run1 = answer miss1 sel request info (this, w) /\
  run2 = answer miss1 sel request info (snd run1) /\
  (forall k e r,
     sel = Some (k, e) ->
     js_get (snd e) (method request) = Own (Static r) ->
     fst run1 = Normal (VResponse r) /\ fst run2 = Normal (VResponse r)).
Proof.
  intros sel run1 run2.
  assert (fst (snd run1) = this) as H1 by apply handler1_this.
  assert (run1 = answer miss1 sel request info (this, w)) as E1
    by apply handler1_answer.
  assert (run2 = answer miss1 sel request info (snd run1)) as E2.
  { subst run2. destruct (snd run1) as [this1 w1] eqn:Hs. cbn [fst] in H1.
    subst this1. apply handler1_answer. }
  assert (fst (snd run2) = this) as H2.
  { subst run2. destruct (snd run1) as [this1 w1] eqn:Hs. cbn [fst] in H1.
    subst this1. apply handler1_this. }
  repeat split; try assumption.
  - rewrite E1, H. cbn [answer]. unfold respond. rewrite H0. reflexivity.
  - rewrite E2, H. cbn [answer]. unfold respond.
    destruct (snd run1) as [this1 w1]. rewrite H0. reflexivity.
Qed.

(** ** The two versions *)

Lemma register_all2 (cs : list Registration) (this : Router2.Router) w :
  register_all call2 cs (this, w)
  = (map outcome cs,
     (Router2.mkRouter (Router2._routes this ++ omap entry_of cs)
        (Router2._defaultResponse this), w)).
Proof.
  revert this. induction cs as [| c rest IH]; intros [routes default].
  - cbn. rewrite app_nil_r. reflexivity.
  - cbn [register_all map omap list_omap]. unfold entry_of at 1, outcome at 1.
    destruct (call2_cases c (Router2.mkRouter routes default) w)
      as [(p & Hp & Hc) | (Hp & Hc)]; rewrite Hc, Hp, IH;
      cbn [Router2._routes Router2._defaultResponse Router2.push].
    + rewrite <- app_assoc. reflexivity.
    + reflexivity.
Qed.

(** C10.  Run the same registration calls on a router of the first and on
    one of the second version: the calls end alike and the arrays are
    equal; for every request the two [handler]s then stop at the same entry
    and give the same completion and the same world; on a miss the first
    returns a response it has just built and the second the response its
    constructor built, both with status 404 and no body. *)
Theorem versions_agree (cs : list Registration) (wa wb : World) :
  let s1 := register_all call1 cs (Router.new, wa) in
  let s2 := register_all call2 cs (Router2.new wb) in
  let r1 := fst (snd s1) in
  let r2 := fst (snd s2) in
  fst s1 = fst s2 /\
  Router._routes r1 = Router2._routes r2 /\
  forall request info w,
    match selected (Router._routes r1) request with
    | Some (k, e) =>
        Router.handler request info (r1, w) = respond e request info (r1, w) /\
        Router2.handler request info (r2, w) = respond e request info (r2, w) /\
        fst (Router.handler request info (r1, w))
        = fst (Router2.handler request info (r2, w)) /\
        snd (snd (Router.handler request info (r1, w)))
        = snd (snd (Router2.handler request info (r2, w)))
    | None =>
        Router.handler request info (r1, w)
        = (Normal (VResponse (mkResponse (next_id w) 404 None)),
           (r1, mkWorld (S (next_id w)) (app_state w))) /\
        Router2.handler request info (r2, w)
        = (Normal (VResponse (mkResponse (next_id wb) 404 None)), (r2, w))
    end.
Proof.
  intros s1 s2 r1 r2.
  assert (s1 = (map outcome cs,
                (Router.mkRouter (omap entry_of cs), wa))) as E1
    by apply register_all1.
  assert (s2 = (map outcome cs,
                (Router2.mkRouter (omap entry_of cs)
                   (mkResponse (next_id wb) 404 None),
                 mkWorld (S (next_id wb)) (app_state wb)))) as E2
    by apply register_all2.
  assert (Router._routes r1 = Router2._routes r2) as Hroutes
    by (subst r1 r2; rewrite E1, E2; reflexivity).
  split; [rewrite E1, E2; reflexivity |]. split; [exact Hroutes |].
  intros request info w.
  pose proof (handler1_answer request info r1 w) as H1.
  pose proof (handler2_answer request info r2 w) as H2.
  rewrite <- Hroutes in H2.
  destruct (selected (Router._routes r1) request) as [[k e] |]; cbn [answer] in *.
  - rewrite H1, H2. repeat split; apply respond_any_router.
  - rewrite H1, H2. split; [reflexivity |].
    unfold miss2. subst r2. rewrite E2. reflexivity.
Qed.

(** C4, as the code has it.  In the second version the response of a miss
    is the one the constructor built, with status 404 and no body:
    registration calls and calls of [handler] leave the field as it is, and
    every miss, whatever the request and the world, returns that same
    response without building anything.  In the first version every miss
    returns a response built on the spot, with status 404 and no body. *)
Theorem default_response_shared_in_second_version
    (cs : list Registration) (w0 : World) :
  let this := fst (snd (register_all call2 cs (Router2.new w0))) in
  Router2._defaultResponse this = mkResponse (next_id w0) 404 None /\
  (forall request info w,
     fst (snd (Router2.handler request info (this, w))) = this) /\
  (forall request info w,
     selected (Router2._routes this) request = None ->
     Router2.handler request info (this, w)
     = (Normal (VResponse (Router2._defaultResponse this)), (this, w))) /\
  (forall (this1 : Router.Router) request info w,
     selected (Router._routes this1) request = None ->
     Router.handler request info (this1, w)
     = (Normal (VResponse (mkResponse (next_id w) 404 None)),
        (this1, mkWorld (S (next_id w)) (app_state w)))).
Proof.
  intros this. repeat split.
  - subst this. unfold Router2.new, new_Response.
    rewrite register_all2. reflexivity.
  - intros request info w. apply handler2_this.
  - intros request info w Hsel. rewrite handler2_answer, Hsel. reflexivity.
  - intros this1 request info w Hsel. rewrite handler1_answer, Hsel. reflexivity.
Qed.

End Claims.

(** ** Methods outside the enumeration *)

Section Methods.
Context {RT : Runtime}.

(** A method that is neither one of the five nor the name of a member of
    [Object.prototype] is in no mapping of the declared type, and the scan
    ends in the 404 response. *)
Lemma foreign_method_is_404 (this : Router.Router) (w : World)
    (request : Request) (info : ServeHandlerInfo) :
  Forall (fun e => well_typed (snd e)) (Router._routes this) ->
  (forall m, method request <> Method_value m) ->
  inherited (method request) = false ->
  exists r,
    Router.handler request info (this, w)
    = (Normal (VResponse r), (this, mkWorld (S (next_id w)) (app_state w))) /\
    status r = 404%Z /\ body r = None.
Proof.
  intros Htyped Hforeign Hinh.
  rewrite handler1_miss.
  - eexists. split; [reflexivity |]. split; reflexivity.
  - apply selected_None. intros e He.
    rewrite Forall_forall in Htyped. specialize (Htyped e He).
    unfold matches, js_in. rewrite Hinh, orb_false_r. unfold has_own.
    destruct (snd e !! method request) as [r |] eqn:Hlook; [| reflexivity].
    destruct (Htyped (method request)) as [m Hm]; [rewrite Hlook; eauto |].
    destruct (Hforeign m Hm).
Qed.

(** The five convenience calls build a mapping of the declared type, so
    calls that keep to the types leave an array of such mappings. *)
Lemma registered_well_typed (c : Registration) :
  typed_call c -> well_typed (snd (registered c)).
Proof.
  destruct c as [t m | t p | t p | t p | t p | t p]; cbn [typed_call registered snd];
    [intros H; exact H | ..];
    intros _ k [r Hr]; apply lookup_singleton_Some in Hr as [<- _]; eauto.
Qed.

Lemma typed_calls_well_typed (cs : list Registration) (this : Router.Router)
    (w : World) :
  Forall typed_call cs ->
  Forall (fun e => well_typed (snd e)) (Router._routes this) ->
  Forall (fun e => well_typed (snd e))
    (Router._routes (fst (snd (register_all call1 cs (this, w))))).
Proof.
  intros Hcs Hthis. rewrite register_all1. cbn [snd fst Router._routes].
  apply Forall_app. split; [exact Hthis |].
  induction Hcs as [| c rest Hc _ IH]; [constructor |].
  cbn [omap list_omap]. unfold entry_of at 1.
  destruct (newURLPattern (fst (registered c))) as [p |]; [| exact IH].
  constructor; [| exact IH]. apply registered_well_typed. exact Hc.
Qed.

End Methods.

(** ** The router at work *)

Section Examples.
#[local] Existing Instance Segments.runtime.

Example decode_space : decodeURIComponent "a%20b" = Normal "a b".
Proof. reflexivity. Qed.

Example decode_slash : decodeURIComponent "a%2Fb" = Normal "a/b".
Proof. reflexivity. Qed.

Example decode_once : decodeURIComponent "a%2520b" = Normal "a%20b".
Proof. reflexivity. Qed.

Example decode_truncated : decodeURIComponent "100%" = Throw URIError.
Proof. reflexivity. Qed.

Example decode_lone_continuation : decodeURIComponent "%80" = Throw URIError.
Proof. reflexivity. Qed.

Example decode_overlong : decodeURIComponent "%C0%AF" = Throw URIError.
Proof. reflexivity. Qed.

Example decode_two_bytes :
  decodeURIComponent "%C3%A9"
  = Normal (String (ascii_of_N 195) (String (ascii_of_N 169) "")).
Proof. reflexivity. Qed.

Example scenario_param :
  fst (Router.handler (mkRequest "GET" "http://localhost/user/42") peer
         (started [CallGet "/user/:id" (Handler echo)]))
  = Normal (VResponse (mkResponse 0 200 (Some "42"))).
Proof. reflexivity. Qed.

Example scenario_other_method :
  fst (Router.handler (mkRequest "POST" "http://localhost/user/42") peer
         (started [CallGet "/user/:id" (Handler echo)]))
  = Normal (VResponse (mkResponse 0 404 None)).
Proof. reflexivity. Qed.

Example scenario_encoded_slash :
  fst (Router.handler (mkRequest "GET" "http://localhost/items/a%2Fb") peer
         (started [CallGet "/items/:name" (Handler echo)]))
  = Normal (VResponse (mkResponse 0 200 (Some "a/b"))).
Proof. reflexivity. Qed.

Example scenario_no_routes :
  fst (Router.handler (mkRequest "GET" "http://localhost/") peer (started []))
  = Normal (VResponse (mkResponse 0 404 None)).
Proof. reflexivity. Qed.

Example scenario_overlap :
  fst (Router.handler (mkRequest "GET" "http://localhost/x") peer
         (started [CallGet "/x" (Static first_response);
                   CallGet "/:seg" (Static second_response)]))
  = Normal (VResponse first_response).
Proof. reflexivity. Qed.

Example scenario_malformed_capture :
  fst (Router.handler (mkRequest "GET" "http://localhost/user/%zz") peer
         (started [CallGet "/user/:id" (Handler echo)]))
  = Throw URIError.
Proof. reflexivity. Qed.

End Examples.

(** ** The theorems at concrete routers *)

Section Instances.
#[local] Existing Instance Segments.runtime.

Lemma first_match_wins_witness :
  Router.handler (mkRequest "GET" "http://localhost/x") peer
    (started [CallGet "/x" (Static first_response);
              CallGet "/:seg" (Static second_response)])
  = (Normal (VResponse first_response),
     started [CallGet "/x" (Static first_response);
              CallGet "/:seg" (Static second_response)]).
Proof.
  set (s := started [CallGet "/x" (Static first_response);
                     CallGet "/:seg" (Static second_response)]).
  destruct (first_match_wins (fst s) (snd s)
              (mkRequest "GET" "http://localhost/x") peer 0 1
              ([Segments.Lit ""; Segments.Lit "x"],
               {[ "GET" := Static first_response ]})
              ([Segments.Lit ""; Segments.Group "seg"],
               {[ "GET" := Static second_response ]}))
    as (k & e & _ & _ & _ & _ & _ & Hrun & Hfirst);
    [lia | reflexivity | reflexivity | reflexivity | reflexivity |].
  destruct Hfirst as [_ ->]; [intros i' e' Hlt; lia |].
  exact Hrun.
Defined.

Lemma no_match_is_404_witness :
  (exists r,
     Router.handler (mkRequest "POST" "http://localhost/user/42") peer
       (started [CallGet "/user/:id" (Handler echo)])
     = (Normal (VResponse r),
        (fst (started [CallGet "/user/:id" (Handler echo)]), mkWorld 1 [])) /\
     status r = 404%Z /\ body r = None)
  /\
  Router.handler_loop ([] ++ x_get :: [seg_post])
    (mkRequest "POST" "http://localhost/x") peer (Router.new, world0)
  = Router.handler_loop ([] ++ [seg_post])
      (mkRequest "POST" "http://localhost/x") peer (Router.new, world0).
Proof.
  split.
  - apply (proj1 no_match_is_404
             (fst (started [CallGet "/user/:id" (Handler echo)])) world0
             (mkRequest "POST" "http://localhost/user/42") peer).
    intros e He. apply list_elem_of_singleton in He. subst e.
    intros [Hin _]. discriminate Hin.
  - apply (proj1 (proj2 no_match_is_404) [] [seg_post] x_get
             (mkRequest "POST" "http://localhost/x") peer (Router.new, world0));
      reflexivity.
Defined.

Lemma captures_are_decoded_witness :
  (exists q,
     Router.handler (mkRequest "GET" "http://localhost/items/a%2Fb") peer
       (started [CallGet "/items/:name" (Handler echo)])
     = (let '(c, w') :=
          echo (mkData (mkRequest "GET" "http://localhost/items/a%2Fb") peer q)
            world0 in
        (c, (fst (started [CallGet "/items/:name" (Handler echo)]), w'))) /\
     Forall2 (fun g g' => fst g' = fst g /\ passed (snd g) (snd g'))
       [("name", Some "a%2Fb")] q)
  /\ decodeURIComponent "a%20b" = Normal "a b"
  /\ decodeURIComponent "a%2Fb" = Normal "a/b"
  /\ decode_group (Some "") = Normal (Some "")
  /\ decode_group None = Normal None.
Proof.
  apply (captures_are_decoded
           (fst (started [CallGet "/items/:name" (Handler echo)])) world0
           (mkRequest "GET" "http://localhost/items/a%2Fb") peer 0
           ([Segments.Lit ""; Segments.Lit "items"; Segments.Group "name"],
            {[ "GET" := Handler echo ]})
           echo [("name", Some "a%2Fb")]);
    [reflexivity | reflexivity | reflexivity |].
  intros name s Hin. apply list_elem_of_singleton in Hin.
  injection Hin as -> ->. exists "a/b". reflexivity.
Defined.

Lemma handler_failure_propagates_witness :
  Router.handler (mkRequest "GET" "http://localhost/user/42") peer
    (started [CallGet "/user/:id" (Handler failing)])
  = (Throw (UserError "boom"),
     started [CallGet "/user/:id" (Handler failing)]).
Proof.
  apply (handler_failure_propagates
           (fst (started [CallGet "/user/:id" (Handler failing)])) world0
           (mkRequest "GET" "http://localhost/user/42") peer 0
           ([Segments.Lit ""; Segments.Lit "user"; Segments.Group "id"],
            {[ "GET" := Handler failing ]})
           failing [("id", Some "42")] [("id", Some "42")]
           (Throw (UserError "boom")) world0);
    [reflexivity | reflexivity | reflexivity | reflexivity | reflexivity |].
  left. exists (UserError "boom"). reflexivity.
Defined.

Lemma registration_appends_witness :
  started [CallGet "/x" (Static first_response);
           CallGet "/(" (Static first_response);
           CallGet "/x" (Static first_response)]
  = (Router.mkRouter [x_get; x_get], world0) /\
  length (omap entry_of [CallGet "/x" (Static first_response);
                         CallGet "/x" (Static first_response)]) = 2.
Proof.
  split.
  - unfold started.
    rewrite (proj1 (proj2 registration_appends)
               [CallGet "/x" (Static first_response);
                CallGet "/(" (Static first_response);
                CallGet "/x" (Static first_response)] Router.new world0).
    reflexivity.
  - apply (proj2 (proj2 registration_appends)
             [CallGet "/x" (Static first_response);
              CallGet "/x" (Static first_response)]).
    repeat constructor.
Defined.

Lemma dispatch_is_deterministic_witness :
  fst (Router.handler (mkRequest "GET" "http://localhost/x") peer
         (started [CallGet "/x" (Static first_response)]))
  = Normal (VResponse first_response) /\
  fst (Router.handler (mkRequest "GET" "http://localhost/x") peer
         (snd (Router.handler (mkRequest "GET" "http://localhost/x") peer
                 (started [CallGet "/x" (Static first_response)]))))
  = Normal (VResponse first_response).
Proof.
  destruct (dispatch_is_deterministic
              (fst (started [CallGet "/x" (Static first_response)])) world0
              (mkRequest "GET" "http://localhost/x") peer)
    as (_ & _ & _ & _ & Hstatic).
  apply (Hstatic 0 ([Segments.Lit ""; Segments.Lit "x"],
                    {[ "GET" := Static first_response ]}) first_response);
    reflexivity.
Defined.

(** C4 fails on the first version: two misses on one router, one after the
    other, return two responses, the second built after the first. *)
Lemma first_version_builds_a_response_per_miss :
  selected (Router._routes (fst (started [])))
    (mkRequest "GET" "http://localhost/missing") = None /\
  fst (Router.handler (mkRequest "GET" "http://localhost/missing") peer
         (started []))
  = Normal (VResponse (mkResponse 0 404 None)) /\
  fst (Router.handler (mkRequest "GET" "http://localhost/missing") peer
         (snd (Router.handler (mkRequest "GET" "http://localhost/missing") peer
                 (started []))))
  = Normal (VResponse (mkResponse 1 404 None)) /\
  fst (Router.handler (mkRequest "GET" "http://localhost/missing") peer
         (started []))
  <> fst (Router.handler (mkRequest "GET" "http://localhost/missing") peer
            (snd (Router.handler (mkRequest "GET" "http://localhost/missing")
                    peer (started [])))).
Proof.
  repeat split. intros Heq. discriminate Heq.
Qed.

Lemma default_response_shared_in_second_version_witness :
  Router2.handler (mkRequest "GET" "http://localhost/missing") peer
    (started2 [CallGet "/x" (Static first_response)])
  = (Normal (VResponse (mkResponse 0 404 None)),
     started2 [CallGet "/x" (Static first_response)]) /\
  Router2.handler (mkRequest "POST" "http://localhost/x") peer
    (snd (Router2.handler (mkRequest "GET" "http://localhost/missing") peer
            (started2 [CallGet "/x" (Static first_response)])))
  = (Normal (VResponse (mkResponse 0 404 None)),
     started2 [CallGet "/x" (Static first_response)]).
Proof.
  destruct (default_response_shared_in_second_version
              [CallGet "/x" (Static first_response)] world0)
    as (Hdefault & _ & Hmiss & _).
  pose proof (Hmiss (mkRequest "GET" "http://localhost/missing") peer
                (mkWorld 1 []) eq_refl) as Hfirst.
  pose proof (Hmiss (mkRequest "POST" "http://localhost/x") peer
                (mkWorld 1 []) eq_refl) as Hsecond.
  rewrite Hdefault in Hfirst, Hsecond.
  split; [exact Hfirst | exact Hsecond].
Defined.

(** C7 fails on the code.  After [get("/x", first_response)] a request
    with the method [constructor] for [/x] is not answered with the 404
    response: [in] finds [constructor] on [Object.prototype], the pattern
    matches, and [handler] returns what [Object] makes of the handler's
    argument.  With the method [toString] it returns a string. *)
Theorem inherited_key_passes_for_a_method :
  (forall m, "constructor" <> Method_value m) /\
  Forall typed_call [CallGet "/x" (Static first_response)] /\
  fst (Router.handler (mkRequest "constructor" "http://localhost/x") peer
         (started [CallGet "/x" (Static first_response)]))
  = Normal (VData (mkData (mkRequest "constructor" "http://localhost/x")
                     peer [])) /\
  ~ not_found (VData (mkData (mkRequest "constructor" "http://localhost/x")
                        peer [])) /\
  fst (Router.handler (mkRequest "toString" "http://localhost/x") peer
         (started [CallGet "/x" (Static first_response)]))
  = Normal (VString "[object Undefined]") /\
  fst (Router.handler (mkRequest "PURGE" "http://localhost/x") peer
         (started [CallGet "/x" (Static first_response)]))
  = Normal (VResponse (mkResponse 0 404 None)).
Proof.
  split; [intros m; destruct m; discriminate |].
  split; [repeat constructor |].
  split; [reflexivity |].
  split; [intros (r & Hr & _); discriminate Hr |].
  split; reflexivity.
Qed.

End Instances.

(** * Further properties of the code *)

(** ** How registration and dispatch compose *)

Section Composition.
Context {RT : Runtime}.

Implicit Types (request : Request) (info : ServeHandlerInfo) (w : World).

Lemma selected_app_hit (routes more : list Entry) request k e :
  selected routes request = Some (k, e) ->
  selected (routes ++ more) request = Some (k, e).
Proof. unfold selected. apply list_find_app_l. Qed.

Lemma selected_app_miss (routes : list Entry) (e : Entry) request :
  selected routes request = None ->
  matches request e = true ->
  selected (routes ++ [e]) request = Some (length routes, e).
Proof.
  intros Hnone He. apply selected_Some. split; [| split].
  - rewrite lookup_app_r, Nat.sub_diag; [reflexivity | lia].
  - exact He.
  - intros k' e' Hlt He'. rewrite lookup_app_l in He' by exact Hlt.
    rewrite selected_None in Hnone. apply Hnone.
    apply list_elem_of_lookup. eauto.
Qed.

(** The answer of the first version, apart from the router object. *)
Lemma handler1_any_router (this this' : Router.Router) w request info :
  selected (Router._routes this') request = selected (Router._routes this) request ->
  fst (Router.handler request info (this', w))
  = fst (Router.handler request info (this, w)) /\
  snd (snd (Router.handler request info (this', w)))
  = snd (snd (Router.handler request info (this, w))).
Proof.
  intros Hsel. rewrite !handler1_answer, Hsel.
  destruct (selected (Router._routes this) request) as [[k e] |]; cbn [answer].
  - apply respond_any_router.
  - split; reflexivity.
Qed.

(** X1.  Once a request is answered by an entry, no later registration call
    changes that: after any further calls the scan stops at the same entry
    at the same position, and [handler] gives the same completion and the
    same world. *)
Theorem later_registrations_keep_the_answer (this : Router.Router) w0
    request k e (cs : list Registration) :
  selected (Router._routes this) request = Some (k, e) ->
  selected
    (Router._routes (fst (snd (register_all call1 cs (this, w0))))) request
  = Some (k, e) /\
  forall info w,
    fst (Router.handler request info
           (fst (snd (register_all call1 cs (this, w0))), w))
    = fst (Router.handler request info (this, w)) /\
    snd (snd (Router.handler request info
                (fst (snd (register_all call1 cs (this, w0))), w)))
    = snd (snd (Router.handler request info (this, w))).
Proof.
  intros Hsel.
  assert (selected
            (Router._routes (fst (snd (register_all call1 cs (this, w0)))))
            request = Some (k, e)) as Hsel'.
  { rewrite register_all1. cbn [fst snd Router._routes].
    apply selected_app_hit. exact Hsel. }
  split; [exact Hsel' |].
  intros info w. apply handler1_any_router. rewrite Hsel', Hsel. reflexivity.
Qed.

(** X2.  A request that no entry answers is answered by the entry a
    registration call adds, when the pattern of the call matches the URL
    and its mapping has the method: the call's producer for the method is
    used, and a stored response is returned as it is. *)
Theorem registered_route_answers (this : Router.Router) w0
    (c : Registration) p producer request :
  (forall e, e ∈ Router._routes this -> matches request e = false) ->
  newURLPattern (fst (registered c)) = Some p ->
  test p (url request) = true ->
  snd (registered c) !! method request = Some producer ->
  forall info w,
    Router.handler request info (fst (snd (call1 c (this, w0))), w)
    = respond (p, snd (registered c)) request info
        (fst (snd (call1 c (this, w0))), w) /\
    js_get (snd (registered c)) (method request) = Own producer /\
    (forall r, producer = Static r ->
       Router.handler request info (fst (snd (call1 c (this, w0))), w)
       = (Normal (VResponse r), (fst (snd (call1 c (this, w0))), w))).
Proof.
  intros Hnone Hp Htest Hlook info w.
  assert (js_get (snd (registered c)) (method request) = Own producer) as Hget
    by (unfold js_get; rewrite Hlook; reflexivity).
  assert (Router.handler request info (fst (snd (call1 c (this, w0))), w)
          = respond (p, snd (registered c)) request info
              (fst (snd (call1 c (this, w0))), w)) as Hrun.
  { destruct (call1_cases c this w0) as [(p' & Hp' & Hc) | (Hp' & _)];
      [| congruence].
    assert (p' = p) as -> by congruence.
    rewrite Hc. cbn [fst snd]. rewrite handler1_answer. cbn [Router._routes].
    rewrite (selected_app_miss _ (p, snd (registered c))); [reflexivity | |].
    - apply selected_None. exact Hnone.
    - unfold matches, js_in, has_own. cbn [fst snd]. rewrite Hlook, Htest.
      reflexivity. }
  split; [exact Hrun |]. split; [exact Hget |].
  intros r ->. rewrite Hrun. unfold respond. cbn [fst snd]. rewrite Hget.
  reflexivity.
Qed.

(** X3.  An entry that fails one of the two tests for a request, the method
    or the pattern, has no part in the answer: with the entry taken out of
    the array, wherever it stands, the scan ends the same way. *)
Theorem failing_entry_is_irrelevant (pre post : list Entry) (e : Entry)
    request info (s : Router.Router * World) :
  matches request e = false ->
  Router.handler_loop (pre ++ e :: post) request info s
  = Router.handler_loop (pre ++ post) request info s.
Proof.
  intros Hfail. destruct s as [this w].
  rewrite !handler_loop1_answer.
  induction pre as [| x pre IH]; cbn [List.app].
  - rewrite (selected_cons_skip _ _ _ Hfail), answer_skip. reflexivity.
  - destruct (matches request x) eqn:Hx.
    + rewrite !(selected_cons_hit _ _ _ Hx). reflexivity.
    + rewrite !(selected_cons_skip _ _ _ Hx), !answer_skip. exact IH.
Qed.

End Composition.

(** ** What the matched producer gets and gives *)

Section Producers.
Context {RT : Runtime}.

Implicit Types (request : Request) (info : ServeHandlerInfo) (w : World).

Lemma own_lookup_get (o : MethodResponses) (key : string) (r : ResponseLike) :
  o !! key = Some r -> js_get o key = Own r.
Proof. intros H. unfold js_get. rewrite H. reflexivity. Qed.

(** X4.  A producer that is a response, or a promise of one, is returned as
    it is stored: the same object for every request the entry answers,
    with no call of [exec] or of the decoder, so also for a URL whose
    captures are malformed; router and world stay as they are. *)
Theorem stored_response_is_returned (this : Router.Router) w request info k e :
  selected (Router._routes this) request = Some (k, e) ->
  (forall r, snd e !! method request = Some (Static r) ->
     Router.handler request info (this, w)
     = (Normal (VResponse r), (this, w))) /\
  (forall p, snd e !! method request = Some (Deferred p) ->
     Router.handler request info (this, w)
     = (Normal (VPromise p), (this, w))).
Proof.
  intros Hsel. rewrite handler1_answer, Hsel. cbn [answer]. unfold respond.
  split; intros x Hx; rewrite (own_lookup_get _ _ _ Hx); reflexivity.
Qed.

Lemma decode_group_throws (v : option string) (err : Error) :
  decode_group v = Throw err -> err = URIError.
Proof.
  destruct v as [[| c s] |]; cbn [decode_group]; try discriminate.
  unfold decodeURIComponent. destruct (Decode (String c s) []); [discriminate |].
  intros H. injection H as <-. reflexivity.
Qed.

Lemma decode_groups_malformed (groups : Groups) (name s : string) :
  (name, Some s) ∈ groups ->
  decodeURIComponent s = Throw URIError ->
  decode_groups groups = Throw URIError.
Proof.
  intros Hin Hbad. induction groups as [| [n v] rest IH].
  - apply elem_of_nil in Hin. destruct Hin.
  - cbn [decode_groups].
    destruct (decode_group v) as [v' | err] eqn:Hv.
    + apply elem_of_cons in Hin as [Heq | Hrest].
      * injection Heq as _ <-. exfalso.
        destruct s as [| c s]; cbn [decode_group] in Hv.
        -- discriminate Hbad.
        -- rewrite Hbad in Hv. discriminate Hv.
      * rewrite (IH Hrest). reflexivity.
    + rewrite (decode_group_throws _ _ Hv). reflexivity.
Qed.

(** X5.  When a capture of the matched URL is not well-formed percent
    encoding, [handler] throws the [URIError] of the decoder and the
    handler function is not called: router and world are as before the
    call. *)
Theorem malformed_capture_throws (this : Router.Router) w request info k e f
    groups name s :
  selected (Router._routes this) request = Some (k, e) ->
  snd e !! method request = Some (Handler f) ->
  exec (fst e) (url request) = Some groups ->
  (name, Some s) ∈ groups ->
  decodeURIComponent s = Throw URIError ->
  Router.handler request info (this, w) = (Throw URIError, (this, w)).
Proof.
  intros Hsel Hlook Hexec Hin Hbad.
  rewrite handler1_answer, Hsel. cbn [answer]. unfold respond.
  rewrite (own_lookup_get _ _ _ Hlook), Hexec,
    (decode_groups_malformed _ _ _ Hin Hbad).
  reflexivity.
Qed.

Lemma Decode_no_escape (s : string) :
  no_escape s = true -> Decode s [] = Some s.
Proof.
  unfold no_escape. induction s as [| c s IH]; [reflexivity |].
  cbn [list_ascii_of_string forallb]. intros H.
  apply andb_true_iff in H as [Hc Hs].
  apply negb_true_iff in Hc. cbn [Decode]. rewrite Hc, (IH Hs). reflexivity.
Qed.

Lemma decode_groups_no_escape (groups : Groups) :
  (forall name s, (name, Some s) ∈ groups -> no_escape s = true) ->
  decode_groups groups = Normal groups.
Proof.
  induction groups as [| [n v] rest IH]; intros Hall; [reflexivity |].
  cbn [decode_groups]. rewrite IH.
  - destruct v as [[| c s] |]; cbn [decode_group]; try reflexivity.
    unfold decodeURIComponent.
    rewrite (Decode_no_escape (String c s)); [reflexivity |].
    apply (Hall n). left.
  - intros name s Hin. apply (Hall name). right. exact Hin.
Qed.

(** X6.  When no capture of the matched URL contains a percent sign, the
    handler function is called with exactly the groups [exec] returned:
    same names, same order, same values. *)
Theorem plain_captures_are_unchanged (this : Router.Router) w request info k e f
    groups :
  selected (Router._routes this) request = Some (k, e) ->
  snd e !! method request = Some (Handler f) ->
  exec (fst e) (url request) = Some groups ->
  (forall name s, (name, Some s) ∈ groups -> no_escape s = true) ->
  Router.handler request info (this, w)
  = (let '(c, w') := f (mkData request info groups) w in (c, (this, w'))).
Proof.
  intros Hsel Hlook Hexec Hplain.
  rewrite handler1_answer, Hsel. cbn [answer]. unfold respond.
  rewrite (own_lookup_get _ _ _ Hlook), Hexec,
    (decode_groups_no_escape _ Hplain).
  reflexivity.
Qed.

Lemma inherited_not_supported (key : string) (m : Method) :
  inherited key = true -> key <> Method_value m.
Proof. intros Hinh ->. destruct m; discriminate Hinh. Qed.

(** X7.  For a request whose method is the name of a member of
    [Object.prototype], an array of mappings of the declared type, and an
    entry whose pattern matches the URL: [handler] returns neither a
    response nor a promise; it throws or returns another value. *)
Theorem inherited_method_gets_no_response (this : Router.Router) w request
    info i e :
  Forall (fun e => well_typed (snd e)) (Router._routes this) ->
  inherited (method request) = true ->
  Router._routes this !! i = Some e ->
  test (fst e) (url request) = true ->
  (forall r, fst (Router.handler request info (this, w)) <> Normal (VResponse r)) /\
  (forall p, fst (Router.handler request info (this, w)) <> Normal (VPromise p)).
Proof.
  intros Htyped Hinh Hi Htest.
  assert (matches request e = true) as Hm.
  { unfold matches, js_in. rewrite Hinh, Htest, orb_true_r. reflexivity. }
  destruct (selected_exists _ _ _ _ Hi Hm) as (k & e' & Hsel & _).
  pose proof Hsel as Hsel'. apply selected_Some in Hsel' as (Hk & _ & _).
  rewrite Forall_forall in Htyped.
  assert (well_typed (snd e')) as Hwt
    by (apply Htyped, list_elem_of_lookup; eauto).
  assert (snd e' !! method request = None) as Hnone.
  { destruct (snd e' !! method request) as [r |] eqn:Hlook; [| reflexivity].
    destruct (Hwt (method request)) as [m Hmeth]; [rewrite Hlook; eauto |].
    destruct (inherited_not_supported _ m Hinh Hmeth). }
  rewrite handler1_answer, Hsel. cbn [answer]. unfold respond, js_get.
  rewrite Hnone, Hinh.
  destruct (inherited_is_function (method request));
    [| split; intros x Hx; discriminate Hx].
  destruct (exec (fst e') (url request)) as [groups |];
    [| split; intros x Hx; discriminate Hx].
  destruct (decode_groups groups) as [q |];
    [| split; intros x Hx; discriminate Hx].
  unfold Object_prototype_call. cbn [fst].
  destruct (String.eqb (method request) "constructor");
    [split; intros x Hx; discriminate Hx |].
  destruct (String.eqb (method request) "toString");
    split; intros x Hx; discriminate Hx.
Qed.

End Producers.

(** ** The second version, and methods outside the enumeration *)

Section SecondVersion.
Context {RT : Runtime}.

Implicit Types (request : Request) (info : ServeHandlerInfo) (w : World).

(** X8.  The [handler] of the second version answers from the first entry
    of its array that passes both tests, with that entry's producer, and
    leaves the router object, the default response included, as it is. *)
Theorem second_version_first_match (this : Router2.Router) w request info i e :
  Router2._routes this !! i = Some e ->
  matches request e = true ->
  (forall i' e', i' < i -> Router2._routes this !! i' = Some e' ->
                 matches request e' = false) ->
  Router2.handler request info (this, w) = respond e request info (this, w) /\
  fst (snd (Router2.handler request info (this, w))) = this.
Proof.
  intros Hi Hm Hbefore.
  assert (selected (Router2._routes this) request = Some (i, e)) as Hsel
    by (apply selected_Some; auto).
  split; [| apply handler2_this].
  rewrite handler2_answer, Hsel. reflexivity.
Qed.

Lemma second_version_sugar (t : string) (p : ResponseLike)
    (s : Router2.Router * World) :
  Router2.get t p s = Router2.route t {[ Method_value GET := p ]} s /\
  Router2.post t p s = Router2.route t {[ Method_value POST := p ]} s /\
  Router2.put t p s = Router2.route t {[ Method_value PUT := p ]} s /\
  Router2.delete t p s = Router2.route t {[ Method_value DELETE := p ]} s /\
  Router2.patch t p s = Router2.route t {[ Method_value PATCH := p ]} s.
Proof.
  destruct s as [this w].
  unfold Router2.get, Router2.post, Router2.put, Router2.delete, Router2.patch,
    Router2.route.
  destruct (newURLPattern t); repeat split.
Qed.

(** X9.  In the second version too the five convenience calls do what
    [route] does with the one-key mapping, and any calls, made one after the
    other, put the entries of the calls that went through behind the
    entries already there, in the order of the calls; the default response
    and the world are not touched, and a call fails exactly when the
    pattern constructor rejects its template. *)
Theorem second_version_registration :
  (forall (t : string) (p : ResponseLike) (s : Router2.Router * World),
     Router2.get t p s = Router2.route t {[ Method_value GET := p ]} s /\
     Router2.post t p s = Router2.route t {[ Method_value POST := p ]} s /\
     Router2.put t p s = Router2.route t {[ Method_value PUT := p ]} s /\
     Router2.delete t p s = Router2.route t {[ Method_value DELETE := p ]} s /\
     Router2.patch t p s = Router2.route t {[ Method_value PATCH := p ]} s)
  /\
  (forall (cs : list Registration) (this : Router2.Router) w,
     register_all call2 cs (this, w)
     = (map outcome cs,
        (Router2.mkRouter (Router2._routes this ++ omap entry_of cs)
           (Router2._defaultResponse this), w))).
Proof.
  split; [apply second_version_sugar | apply register_all2].
Qed.

(** X10.  On a router built by registration calls that keep to the declared
    types, a request whose method is neither one of the five of the
    enumeration, compared as a string (so [get] is not [GET]), nor the name
    of a member of [Object.prototype] is answered with a new response of
    status 404 and no body, whatever its URL. *)
Theorem unlisted_method_is_404 (cs : list Registration) w0 request info w :
  Forall typed_call cs ->
  (forall m, method request <> Method_value m) ->
  inherited (method request) = false ->
  exists r,
    Router.handler request info
      (fst (snd (register_all call1 cs (Router.new, w0))), w)
    = (Normal (VResponse r),
       (fst (snd (register_all call1 cs (Router.new, w0))),
        mkWorld (S (next_id w)) (app_state w))) /\
    status r = 404%Z /\ body r = None.
Proof.
  intros Htyped Hforeign Hinh.
  apply foreign_method_is_404; [| exact Hforeign | exact Hinh].
  apply typed_calls_well_typed; [exact Htyped | constructor].
Qed.

End SecondVersion.

(** ** The further properties at concrete routers *)

Section MoreInstances.
#[local] Existing Instance Segments.runtime.

Lemma later_registrations_keep_the_answer_witness :
  fst (Router.handler (mkRequest "GET" "http://localhost/x") peer
         (started [CallGet "/x" (Static first_response);
                   CallGet "/:seg" (Static second_response);
                   CallGet "/x" (Static second_response)]))
  = fst (Router.handler (mkRequest "GET" "http://localhost/x") peer
           (started [CallGet "/x" (Static first_response)])).
Proof.
  destruct (later_registrations_keep_the_answer
              (fst (started [CallGet "/x" (Static first_response)])) world0
              (mkRequest "GET" "http://localhost/x") 0 x_get
              [CallGet "/:seg" (Static second_response);
               CallGet "/x" (Static second_response)] eq_refl)
    as [_ Hsame].
  exact (proj1 (Hsame peer world0)).
Defined.

Lemma registered_route_answers_witness :
  Router.handler (mkRequest "POST" "http://localhost/user/7") peer
    (fst (snd (call1 (CallRoute "/user/:id"
                        (<[ "POST" := Static second_response ]>
                           {[ "GET" := Static first_response ]}))
                 (started [CallGet "/x" (Static first_response)]))), world0)
  = (Normal (VResponse second_response),
     (fst (snd (call1 (CallRoute "/user/:id"
                         (<[ "POST" := Static second_response ]>
                            {[ "GET" := Static first_response ]}))
                  (started [CallGet "/x" (Static first_response)]))), world0)).
Proof.
  destruct (registered_route_answers
              (fst (started [CallGet "/x" (Static first_response)])) world0
              (CallRoute "/user/:id"
                 (<[ "POST" := Static second_response ]>
                    {[ "GET" := Static first_response ]}))
              [Segments.Lit ""; Segments.Lit "user"; Segments.Group "id"]
              (Static second_response)
              (mkRequest "POST" "http://localhost/user/7"))
    with (info := peer) (w := world0) as (_ & _ & Hstatic);
    [| reflexivity | reflexivity | reflexivity |].
  - intros e He. apply list_elem_of_singleton in He. subst e. reflexivity.
  - apply (Hstatic second_response). reflexivity.
Defined.

Lemma failing_entry_is_irrelevant_witness :
  Router.handler_loop ([x_get] ++ seg_post :: [x_get])
    (mkRequest "GET" "http://localhost/x") peer (Router.new, world0)
  = Router.handler_loop ([x_get] ++ [x_get])
      (mkRequest "GET" "http://localhost/x") peer (Router.new, world0).
Proof.
  apply (failing_entry_is_irrelevant [x_get] [x_get] seg_post
           (mkRequest "GET" "http://localhost/x") peer (Router.new, world0)).
  reflexivity.
Defined.

Lemma stored_response_is_returned_witness :
  Router.handler (mkRequest "GET" "http://localhost/user/%zz") peer
    (started [CallGet "/user/:id" (Static first_response)])
  = (Normal (VResponse first_response),
     started [CallGet "/user/:id" (Static first_response)]).
Proof.
  destruct (stored_response_is_returned
              (fst (started [CallGet "/user/:id" (Static first_response)]))
              world0 (mkRequest "GET" "http://localhost/user/%zz") peer 0
              ([Segments.Lit ""; Segments.Lit "user"; Segments.Group "id"],
               {[ "GET" := Static first_response ]}) eq_refl)
    as [Hstatic _].
  apply (Hstatic first_response). reflexivity.
Defined.

Lemma malformed_capture_throws_witness :
  Router.handler (mkRequest "GET" "http://localhost/user/%zz") peer
    (started [CallGet "/user/:id" (Handler echo)])
  = (Throw URIError, started [CallGet "/user/:id" (Handler echo)]).
Proof.
  apply (malformed_capture_throws
           (fst (started [CallGet "/user/:id" (Handler echo)])) world0
           (mkRequest "GET" "http://localhost/user/%zz") peer 0
           ([Segments.Lit ""; Segments.Lit "user"; Segments.Group "id"],
            {[ "GET" := Handler echo ]})
           echo [("id", Some "%zz")] "id" "%zz");
    [reflexivity | reflexivity | reflexivity | left | reflexivity].
Defined.

Lemma plain_captures_are_unchanged_witness :
  Router.handler (mkRequest "GET" "http://localhost/user/42") peer
    (started [CallGet "/user/:id" (Handler echo)])
  = (Normal (VResponse (mkResponse 0 200 (Some "42"))),
     (fst (started [CallGet "/user/:id" (Handler echo)]), mkWorld 1 [])).
Proof.
  apply (plain_captures_are_unchanged
           (fst (started [CallGet "/user/:id" (Handler echo)])) world0
           (mkRequest "GET" "http://localhost/user/42") peer 0
           ([Segments.Lit ""; Segments.Lit "user"; Segments.Group "id"],
            {[ "GET" := Handler echo ]})
           echo [("id", Some "42")]);
    [reflexivity | reflexivity | reflexivity |].
  intros name s Hin. apply list_elem_of_singleton in Hin.
  injection Hin as -> ->. reflexivity.
Defined.

Lemma inherited_method_gets_no_response_witness :
  (forall r,
     fst (Router.handler (mkRequest "valueOf" "http://localhost/x") peer
            (started [CallGet "/x" (Static first_response)]))
     <> Normal (VResponse r)) /\
  (forall p,
     fst (Router.handler (mkRequest "valueOf" "http://localhost/x") peer
            (started [CallGet "/x" (Static first_response)]))
     <> Normal (VPromise p)).
Proof.
  apply (inherited_method_gets_no_response
           (fst (started [CallGet "/x" (Static first_response)])) world0
           (mkRequest "valueOf" "http://localhost/x") peer 0 x_get);
    [| reflexivity | reflexivity | reflexivity].
  repeat constructor. cbn [snd].
  apply (registered_well_typed (CallGet "/x" (Static first_response))).
  exact I.
Defined.

Lemma second_version_first_match_witness :
  Router2.handler (mkRequest "GET" "http://localhost/x") peer
    (fst (started2 [CallPost "/x" (Static second_response);
                    CallGet "/x" (Static first_response)]), world0)
  = (Normal (VResponse first_response),
     (fst (started2 [CallPost "/x" (Static second_response);
                     CallGet "/x" (Static first_response)]), world0)).
Proof.
  destruct (second_version_first_match
              (fst (started2 [CallPost "/x" (Static second_response);
                              CallGet "/x" (Static first_response)]))
              world0 (mkRequest "GET" "http://localhost/x") peer 1
              x_get eq_refl eq_refl) as [Hrun _].
  - intros i' e' Hlt He'. assert (i' = 0) as -> by lia.
    injection He' as <-. reflexivity.
  - exact Hrun.
Defined.

Lemma unlisted_method_is_404_witness :
  exists r,
    Router.handler (mkRequest "get" "http://localhost/x") peer
      (started [CallGet "/x" (Static first_response)])
    = (Normal (VResponse r),
       (fst (started [CallGet "/x" (Static first_response)]), mkWorld 1 [])) /\
    status r = 404%Z /\ body r = None.
Proof.
  apply (unlisted_method_is_404 [CallGet "/x" (Static first_response)] world0
           (mkRequest "get" "http://localhost/x") peer world0).
  - repeat constructor.
  - intros m. destruct m; discriminate.
  - reflexivity.
Defined.

End MoreInstances.

(** ** The exceptions that leave [handler] *)

Section Exceptions.
Context {RT : Runtime}.

Implicit Types (request : Request) (info : ServeHandlerInfo) (w : World).

Lemma decode_groups_throws (groups : Groups) (err : Error) :
  decode_groups groups = Throw err -> err = URIError.
Proof.
  revert err. induction groups as [| [n v] rest IH]; intros err; [discriminate |].
  cbn [decode_groups].
  destruct (decode_group v) as [v' | e1] eqn:Hv.
  - destruct (decode_groups rest) as [q | e2]; [discriminate |].
    intros H. injection H as <-. apply IH. reflexivity.
  - intros H. injection H as <-. exact (decode_group_throws _ _ Hv).
Qed.

(** X11.  With a pattern matcher whose [exec] finds a match wherever its
    [test] does, and a request with one of the five methods, an exception
    leaves [handler] in two cases only: the decoder rejected a capture, and
    then it is a [URIError] and router and world are as before; or the
    handler function of the answering entry threw it. *)
Theorem exceptions_of_handler (this : Router.Router) w request info m err s' :
  method request = Method_value m ->
  (forall e, e ∈ Router._routes this -> test (fst e) (url request) = true ->
             is_Some (exec (fst e) (url request))) ->
  Router.handler request info (this, w) = (Throw err, s') ->
  (err = URIError /\ s' = (this, w)) \/
  (exists k e f q,
     selected (Router._routes this) request = Some (k, e) /\
     snd e !! method request = Some (Handler f) /\
     f (mkData request info q) w = (Throw err, snd s')).
Proof.
  intros Hm Hexec. rewrite handler1_answer.
  destruct (selected (Router._routes this) request) as [[k e] |] eqn:Hsel;
    cbn [answer]; [| discriminate].
  pose proof Hsel as Hsel'. apply selected_Some in Hsel' as (Hk & Hmatch & _).
  unfold matches in Hmatch. apply andb_true_iff in Hmatch as [_ Htest].
  assert (e ∈ Router._routes this) as He by (apply list_elem_of_lookup; eauto).
  destruct (Hexec e He Htest) as [groups Hgroups].
  unfold respond, js_get.
  destruct (snd e !! method request) as [[r | p | f] |] eqn:Hlook;
    try discriminate.
  - rewrite Hgroups.
    destruct (decode_groups groups) as [q | e1] eqn:Hq.
    + destruct (f (mkData request info q) w) as [c w'] eqn:Hf.
      intros H. injection H as -> <-. right. exists k, e, f, q.
      split; [reflexivity |]. split; [exact Hlook | exact Hf].
    + intros H. injection H as <- <-. left.
      split; [exact (decode_groups_throws _ _ Hq) | reflexivity].
  - rewrite Hm. replace (inherited (Method_value m)) with false
      by (destruct m; reflexivity).
    discriminate.
Qed.

End Exceptions.

Section ExceptionInstances.
#[local] Existing Instance Segments.runtime.

Lemma exceptions_of_handler_witness :
  (UserError "boom" = URIError /\
   started [CallGet "/user/:id" (Handler failing)]
   = started [CallGet "/user/:id" (Handler failing)]) \/
  (exists k e f q,
     selected
       (Router._routes (fst (started [CallGet "/user/:id" (Handler failing)])))
       (mkRequest "GET" "http://localhost/user/42") = Some (k, e) /\
     snd e !! "GET" = Some (Handler f) /\
     f (mkData (mkRequest "GET" "http://localhost/user/42") peer q) world0
     = (Throw (UserError "boom"), world0)).
Proof.
  apply (exceptions_of_handler
           (fst (started [CallGet "/user/:id" (Handler failing)])) world0
           (mkRequest "GET" "http://localhost/user/42") peer GET
           (UserError "boom")
           (started [CallGet "/user/:id" (Handler failing)])).
  - reflexivity.
  - intros e He _. apply list_elem_of_singleton in He. subst e.
    eexists. reflexivity.
  - reflexivity.
Defined.

End ExceptionInstances.

(** ** A miss, with the mapping read by its own keys *)

Section OwnKeys.
Context {RT : Runtime}.

(** For a method that is not the name of a member of [Object.prototype],
    a mapping passes the test of the scan exactly when it has the key; so
    when no entry both has the key and a matching pattern the answer is the
    new 404 response. *)
Lemma own_key_miss_is_404 (this : Router.Router) (w : World)
    (request : Request) (info : ServeHandlerInfo) :
  inherited (method request) = false ->
  (forall e, e ∈ Router._routes this ->
             ~ (is_Some (snd e !! method request) /\
                test (fst e) (url request) = true)) ->
  Router.handler request info (this, w)
  = (Normal (VResponse (mkResponse (next_id w) 404 None)),
     (this, mkWorld (S (next_id w)) (app_state w))).
Proof.
  intros Hinh Hnone. apply handler1_miss, selected_None. intros e He.
  specialize (Hnone e He). unfold matches, js_in, has_own.
  rewrite Hinh, orb_false_r.
  destruct (snd e !! method request) as [r |]; [| reflexivity].
  destruct (test (fst e) (url request)); [| reflexivity].
  exfalso. apply Hnone. split; [eauto | reflexivity].
Qed.

End OwnKeys.

Section OwnKeyInstances.
#[local] Existing Instance Segments.runtime.

(** C2 fails on the code.  After [get("/x", first_response)] the one
    entry of the array has no key [constructor], so no entry both has the
    method of the request [constructor /x] in its mapping and a matching
    pattern; yet [handler] does not return the 404 response but what
    [Object] makes of the handler's argument, and the entry, whose pattern
    matches and whose mapping lacks the method, is not stepped over: the
    scan of the array with the entry differs from the scan without it. *)
Theorem own_key_miss_is_answered_by_inherited_key :
  (forall e,
     e ∈ Router._routes (fst (started [CallGet "/x" (Static first_response)])) ->
     ~ (is_Some (snd e !! "constructor") /\
        test (fst e) "http://localhost/x" = true)) /\
  Router._routes (fst (started [CallGet "/x" (Static first_response)]))
  = [x_get] /\
  snd x_get !! "constructor" = None /\
  test (fst x_get) "http://localhost/x" = true /\
  fst (Router.handler (mkRequest "constructor" "http://localhost/x") peer
         (started [CallGet "/x" (Static first_response)]))
  = Normal (VData (mkData (mkRequest "constructor" "http://localhost/x")
                     peer [])) /\
  ~ not_found (VData (mkData (mkRequest "constructor" "http://localhost/x")
                        peer [])) /\
  fst (Router.handler_loop ([] ++ x_get :: [])
         (mkRequest "constructor" "http://localhost/x") peer
         (Router.new, world0))
  <> fst (Router.handler_loop ([] ++ [])
            (mkRequest "constructor" "http://localhost/x") peer
            (Router.new, world0)).
Proof.
  split.
  { intros e He. apply list_elem_of_singleton in He. subst e.
    intros [[r Hr] _]. discriminate Hr. }
  split; [reflexivity |]. split; [reflexivity |]. split; [reflexivity |].
  split; [reflexivity |].
  split; [intros (r & Hr & _); discriminate Hr |].
  intros Heq. discriminate Heq.
Qed.

End OwnKeyInstances.
